(** * Writing3D / pycave: validators, features and actions

    A shallow embedding of [pycave/validators.py], [pycave/features.py] and
    [pycave/actions.py].  Python objects become values of [pyval], raising
    an exception becomes the [Raise] branch of [outcome], and code that
    mutates [self] threads the instance dictionary explicitly. *)

From Stdlib Require Import ZArith String Ascii List Bool Lia.
From Stdlib Require Import Floats.SpecFloat.
From stdpp Require Import gmap strings list pretty.

Import ListNotations.
Local Open Scope string_scope.
Local Open Scope Z_scope.

(** ** Python values *)

(** The values that reach the validators and the action dictionaries.
    A float is an IEEE binary64 datum ([spec_float] at precision 53).
    A placement is itself a feature, that is a [dict] subclass; it is kept
    as the ordered list of its items. *)
Inductive pytype :=
| Tint | Tfloat | Tstr | Tbool | Ttuple | Tlist | Tdict | TNoneType | Ttype
| Tobject | TCavePlacement.

#[warnings="-register-all"]
Inductive pyval :=
| VNone
| VBool (b : bool)
| VInt (z : Z)
| VFloat (f : spec_float)
| VStr (s : string)
| VTuple (items : list pyval)
| VList (items : list pyval)
| VType (t : pytype)
| VPlacement (items : list (string * pyval)).

(** ** Exceptions *)

(** The text of an [InvalidArgument] raised by a feature is
    ["{} not a valid option for this W3D feature".format(key)] or
    ["{} is not a valid value for option {}".format(value, key)]; the parts
    that are formatted are kept instead of the rendered text.  Other modules
    raise it with a text of their own. *)
Inductive invalid_argument :=
| NotAValidOption (key : string)
| NotAValidValue (value : pyval) (key : string)
| OtherArgument (msg : string).

(** [BadCaveXML], [InvalidArgument] and [ConsistencyError] come from
    [pycave.errors]; they are three unrelated exception classes.  The others
    are Python's built-in ones, raised by the interpreter. *)
Inductive exn :=
| BadCaveXML (msg : string)
| InvalidArgument (what : invalid_argument)
| ConsistencyError (msg : string)
| KeyError (key : pyval)
| TypeError
| ValueError
| AttributeError
| IndexError
| OverflowError
| NotImplementedError (msg : string).

Inductive outcome (A : Type) :=
| Return (a : A)
| Raise (e : exn).
Arguments Return {A} a.
Arguments Raise {A} e.

Definition bind {A B} (m : outcome A) (k : A -> outcome B) : outcome B :=
  match m with
  | Return a => k a
  | Raise e => Raise e
  end.

Notation "x <- m ;; k" := (bind m (fun x => k))
  (at level 100, m at next level, right associativity).

(** [try: body except E: handler], where [handles] tells the exceptions
    that the [except] clause names. *)
Definition try_except {A} (body : outcome A) (handles : exn -> bool)
    (handler : outcome A) : outcome A :=
  match body with
  | Return a => Return a
  | Raise e => if handles e then handler else Raise e
  end.

Definition is_KeyError (e : exn) : bool :=
  match e with KeyError _ => true | _ => false end.
Definition is_TypeError (e : exn) : bool :=
  match e with TypeError => true | _ => false end.
Definition is_InvalidArgument (e : exn) : bool :=
  match e with InvalidArgument _ => true | _ => false end.

Definition returns {A} (m : outcome A) : bool :=
  match m with Return _ => true | Raise _ => false end.

(** ** Built-in operations on values *)

(** Truth value of an object, as [if] and [not] test it. *)
Definition sf_is_zero (f : spec_float) : bool :=
  match f with S754_zero _ => true | _ => false end.

Definition truthy (v : pyval) : bool :=
  match v with
  | VNone => false
  | VBool b => b
  | VInt z => negb (z =? 0)
  | VFloat f => negb (sf_is_zero f)
  | VStr s => negb (String.eqb s EmptyString)
  | VTuple l | VList l => match l with [] => false | _ => true end
  | VType _ => true
  | VPlacement l => match l with [] => false | _ => true end
  end.

(** [hash(v)] succeeds: lists and dicts have no hash, a tuple has one when
    its items do. *)
Fixpoint hashable (v : pyval) : bool :=
  match v with
  | VList _ | VPlacement _ => false
  | VTuple l => forallb hashable l
  | _ => true
  end.

Definition chars (s : string) : list pyval :=
  map (fun c => VStr (String c EmptyString)) (list_ascii_of_string s).

(** [iter(v)]: the items a [for] loop sees, [None] when [v] is not
    iterable.  Iterating a dict yields its keys. *)
Definition py_iter (v : pyval) : option (list pyval) :=
  match v with
  | VStr s => Some (chars s)
  | VTuple l | VList l => Some l
  | VPlacement l => Some (map (fun kv => VStr (fst kv)) l)
  | _ => None
  end.

Definition py_len (v : pyval) : outcome Z :=
  match py_iter v with
  | Some l => Return (Z.of_nat (length l))
  | None => Raise TypeError
  end.

(** *** Text *)

Definition code (c : ascii) : N := N_of_ascii c.

(** Text is ASCII text.  White space for [str.strip]: tab to carriage
    return, the four separators, space.  [float] skips less: the C locale's
    white space, without the separators. *)
Definition is_space (c : ascii) : bool :=
  ((9 <=? code c) && (code c <=? 13) || (28 <=? code c) && (code c <=? 32))%N.
Definition is_c_space (c : ascii) : bool :=
  ((9 <=? code c) && (code c <=? 13) || (code c =? 32))%N.

Fixpoint lstrip (space : ascii -> bool) (cs : list ascii) : list ascii :=
  match cs with
  | c :: cs' => if space c then lstrip space cs' else cs
  | [] => []
  end.

Definition strip_chars (space : ascii -> bool) (cs : list ascii) : list ascii :=
  rev (lstrip space (rev (lstrip space cs))).

Definition str_strip (s : string) : string :=
  string_of_list_ascii (strip_chars is_space (list_ascii_of_string s)).

(** [v.strip()]: a [str] has the method.  The class [str] has it too, but
    unbound: called without an argument it is a [TypeError].  No other
    value has the attribute. *)
Definition py_strip (v : pyval) : outcome pyval :=
  match v with
  | VStr s => Return (VStr (str_strip s))
  | VType Tstr => Raise TypeError
  | _ => Raise AttributeError
  end.

(** *** [float(x)] *)

Definition is_digit (c : ascii) : bool := ((48 <=? code c) && (code c <=? 57))%N.
Definition digit_value (c : ascii) : Z := Z.of_N (code c) - 48.
Definition lower (c : ascii) : ascii :=
  if ((65 <=? code c) && (code c <=? 90))%N then ascii_of_N (code c + 32) else c.
Definition is_char (c d : ascii) : bool := (code c =? code d)%N.

(** [digit (["_"] digit)*] after its first digit was seen: the value read so
    far, the count of digits, and what is left of the text. *)
Fixpoint digits_tail (cs : list ascii) (acc n : Z) : Z * Z * list ascii :=
  match cs with
  | c :: cs' =>
      if is_digit c then digits_tail cs' (10 * acc + digit_value c) (n + 1)
      else if is_char c "_" then
        match cs' with
        | d :: _ => if is_digit d then digits_tail cs' acc n else (acc, n, cs)
        | [] => (acc, n, cs)
        end
      else (acc, n, cs)
  | [] => (acc, n, [])
  end.

Definition digitpart (cs : list ascii) (acc : Z) : option (Z * Z * list ascii) :=
  match cs with
  | c :: _ => if is_digit c then Some (digits_tail cs acc 0) else None
  | [] => None
  end.

Definition split_sign (cs : list ascii) : bool * list ascii :=
  match cs with
  | c :: cs' =>
      if is_char c "-" then (true, cs')
      else if is_char c "+" then (false, cs') else (false, cs)
  | [] => (false, [])
  end.

(** [number ::= [digitpart] "." digitpart | digitpart ["."]]: the digits as
    one integer and the count of digits after the point. *)
Definition number (cs : list ascii) : option (Z * Z * list ascii) :=
  match digitpart cs 0 with
  | Some (i, _, rest) =>
      match rest with
      | c :: rest' =>
          if is_char c "." then
            match digitpart rest' i with
            | Some r => Some r
            | None => Some (i, 0, rest')
            end
          else Some (i, 0, rest)
      | [] => Some (i, 0, [])
      end
  | None =>
      match cs with
      | c :: rest' => if is_char c "." then digitpart rest' 0 else None
      | [] => None
      end
  end.

(** [[exponent]] up to the end of the text. *)
Definition exponent (cs : list ascii) : option Z :=
  match cs with
  | [] => Some 0
  | c :: cs' =>
      if is_char (lower c) "e" then
        let '(neg, ds) := split_sign cs' in
        match digitpart ds 0 with
        | Some (e, _, []) => Some (if neg then - e else e)
        | _ => None
        end
      else None
  end.

Definition prec : Z := 53.
Definition emax : Z := 1024.

(** The binary64 nearest to [m * 10 ^ e10] (ties to even), [m] positive. *)
Definition round_decimal (neg : bool) (m e10 : Z) : spec_float :=
  if m =? 0 then S754_zero neg
  else if 0 <=? e10 then
    binary_normalize prec emax ((if neg then - m else m) * 10 ^ e10) 0 false
  else
    let '(q, e, l) := SFdiv_core_binary prec emax m 0 (10 ^ (- e10)) 0 in
    binary_round_aux prec emax neg q e l.

Definition text_is (cs : list ascii) (s : string) : bool :=
  String.eqb (string_of_list_ascii (map lower cs)) s.

(** [float(s)] for a string: white space around, a sign, then [inf],
    [infinity], [nan] or a decimal number; [None] stands for the
    [ValueError] of any other text. *)
Definition float_of_text (s : string) : option spec_float :=
  let '(neg, body) := split_sign (strip_chars is_c_space (list_ascii_of_string s)) in
  if text_is body "inf" || text_is body "infinity" then Some (S754_infinity neg)
  else if text_is body "nan" then Some S754_nan
  else
    match number body with
    | Some (m, nfrac, rest) =>
        match exponent rest with
        | Some e => Some (round_decimal neg m (e - nfrac))
        | None => None
        end
    | None => None
    end.

Definition float_of_int (z : Z) : outcome spec_float :=
  match binary_normalize prec emax z 0 false with
  | S754_infinity _ => Raise OverflowError
  | f => Return f
  end.

(** [float(v)]: numbers and numeric text convert, other text is a
    [ValueError], any other object a [TypeError]. *)
Definition py_float (v : pyval) : outcome spec_float :=
  match v with
  | VBool b => float_of_int (if b then 1 else 0)
  | VInt z => float_of_int z
  | VFloat f => Return f
  | VStr s =>
      match float_of_text s with
      | Some f => Return f
      | None => Raise ValueError
      end
  | _ => Raise TypeError
  end.


(** *** [isinstance] *)

Definition type_of (v : pyval) : pytype :=
  match v with
  | VNone => TNoneType
  | VBool _ => Tbool
  | VInt _ => Tint
  | VFloat _ => Tfloat
  | VStr _ => Tstr
  | VTuple _ => Ttuple
  | VList _ => Tlist
  | VType _ => Ttype
  | VPlacement _ => TCavePlacement
  end.

Definition pytype_eqb (a b : pytype) : bool :=
  match a, b with
  | Tint, Tint | Tfloat, Tfloat | Tstr, Tstr | Tbool, Tbool
  | Ttuple, Ttuple | Tlist, Tlist | Tdict, Tdict | TNoneType, TNoneType
  | Ttype, Ttype | Tobject, Tobject | TCavePlacement, TCavePlacement => true
  | _, _ => false
  end.

(** [issubclass(a, b)]: every class derives from [object], [bool] from
    [int], and a feature class from [dict]. *)
Definition subclass (a b : pytype) : bool :=
  pytype_eqb a b
  || pytype_eqb b Tobject
  || pytype_eqb a Tbool && pytype_eqb b Tint
  || pytype_eqb a TCavePlacement && pytype_eqb b Tdict.

(** [isinstance(obj, classinfo)]: [classinfo] is a class or a tuple of
    such, tried from the left; anything else is a [TypeError]. *)
Fixpoint py_isinstance (obj classinfo : pyval) {struct classinfo} : outcome bool :=
  match classinfo with
  | VType t => Return (subclass (type_of obj) t)
  | VTuple l =>
      (fix any (l : list pyval) : outcome bool :=
         match l with
         | [] => Return false
         | c :: l' =>
             r <- py_isinstance obj c ;;
             if r then Return true else any l'
         end) l
  | _ => Raise TypeError
  end.

(** ** validators.py *)

Inductive validator :=
| OptionListValidator (valid_options : list string)
| IsNumeric
| IsNumericIterable (required_length : option Z)
| CheckType (correct_type : pytype)
| AlwaysValid (help_string : string).

(** Calling the class [IsNumeric] with positional arguments [args] and
    keyword arguments [kwargs]: [__init__(self)] takes no argument, so the
    call raises [TypeError] as soon as one is passed. *)
Definition IsNumeric_init (args : list pyval) (kwargs : list (string * pyval))
  : outcome validator :=
  match args, kwargs with
  | [], [] => Return IsNumeric
  | _, _ => Raise TypeError
  end.

(** A validator object defines neither [__bool__] nor [__len__]. *)
Definition validator_truthy (v : validator) : bool := true.

(** [value in self.valid_options], a set of strings: the value is hashed,
    then compared. *)
Definition OptionListValidator_call (valid_options : list string)
    (value : pyval) : outcome bool :=
  if hashable value then
    Return match value with
           | VStr s => existsb (String.eqb s) valid_options
           | _ => false
           end
  else Raise TypeError.

Definition IsNumeric_call (value : pyval) : outcome bool :=
  try_except (_ <- py_float value ;; Return true)
    is_TypeError (Return false).

(** The [for] loop of [IsNumericIterable.__call__]: [Some b] when the loop
    body executed [return b], [None] when the loop ran to its end. *)
Fixpoint IsNumericIterable_loop (values : list pyval) : outcome (option bool) :=
  match values with
  | [] => Return None
  | value :: rest =>
      checker <- IsNumeric_init [value] [] ;;
      if negb (validator_truthy checker) then Return (Some false)
      else IsNumericIterable_loop rest
  end.

Definition IsNumericIterable_call (required_length : option Z)
    (iterable : pyval) : outcome bool :=
  try_except
    match py_iter iterable with
    | None => Raise TypeError
    | Some values =>
        r <- IsNumericIterable_loop values ;;
        match r with
        | Some b => Return b
        | None =>
            match required_length with
            | None => Return true
            | Some n => len <- py_len iterable ;; Return (len =? n)
            end
        end
    end
    is_TypeError (Return false).

(** [isinstance(self.correct_type, value)], in this order. *)
Definition CheckType_call (correct_type : pytype) (value : pyval) : outcome bool :=
  py_isinstance (VType correct_type) value.

Definition AlwaysValid_call (value : pyval) : outcome bool := Return true.

(** [validator(value)] *)
Definition validator_call (v : validator) (value : pyval) : outcome bool :=
  match v with
  | OptionListValidator valid_options => OptionListValidator_call valid_options value
  | IsNumeric => IsNumeric_call value
  | IsNumericIterable required_length => IsNumericIterable_call required_length value
  | CheckType correct_type => CheckType_call correct_type value
  | AlwaysValid _ => AlwaysValid_call value
  end.


(** ** features.py *)

(** A dict display [{k1: v1, k2: v2, ...}]: entries are stored from the
    left, a later entry replaces an earlier one with the same key. *)
Definition dict_display {V} (entries : list (string * V)) : gmap string V :=
  fold_left (fun d kv => <[kv.1 := kv.2]> d) entries ∅.

(** The two class attributes a feature class overrides. *)
Record feature_class := {
  argument_validators : gmap string validator;
  default_arguments : gmap string pyval
}.

(** [W3DFeature] itself: both tables are empty. *)
Definition W3DFeature : feature_class :=
  {| argument_validators := ∅; default_arguments := ∅ |}.

(** A method that mutates [self]: the instance dictionary goes in, and comes
    out next to the method's result, also when the method raises. *)
Definition M (A : Type) : Type := gmap string pyval -> outcome A * gmap string pyval.

Definition ret {A} (a : A) : M A := fun self => (Return a, self).
Definition bindM {A B} (m : M A) (k : A -> M B) : M B :=
  fun self =>
    match m self with
    | (Return a, self') => k a self'
    | (Raise e, self') => (Raise e, self')
    end.

Notation "m ;;; k" := (bindM m (fun _ => k))
  (at level 100, right associativity).

Section Feature.
Variable cls : feature_class.

(** [key in self] *)
Definition contains {V} (d : gmap string V) (key : string) : bool :=
  bool_decide (is_Some (d !! key)).

(** [W3DFeature.__setitem__] *)
Definition setitem (key : string) (value : pyval) : M unit :=
  fun self =>
    if negb (contains (argument_validators cls) key) then
      (Raise (InvalidArgument (NotAValidOption key)), self)
    else
      match argument_validators cls !! key with
      | None => (Raise (KeyError (VStr key)), self)
      | Some validator =>
          match validator_call validator value with
          | Raise e => (Raise e, self)
          | Return ok =>
              if negb ok then
                (Raise (InvalidArgument (NotAValidValue value key)), self)
              else (Return tt, <[key := value]> self)
          end
      end.

(** [W3DFeature.__missing__] *)
Definition missing (key : string) : outcome pyval :=
  match default_arguments cls !! key with
  | Some default => Return default
  | None => Raise (KeyError (VStr key))
  end.

(** [self[key]]: [dict.__getitem__], which falls back on [__missing__]. *)
Definition getitem (self : gmap string pyval) (key : string) : outcome pyval :=
  match self !! key with
  | Some value => Return value
  | None => missing key
  end.

(** [self.get(key, default)] is [dict.get]: no [__missing__] there. *)
Definition dict_get (self : gmap string pyval) (key : string) (default : pyval) : pyval :=
  match self !! key with
  | Some value => value
  | None => default
  end.

(** [W3DFeature.update] *)
Fixpoint update (other : list (string * pyval)) : M unit :=
  match other with
  | [] => ret tt
  | (key, value) :: rest => setitem key value ;;; update rest
  end.

(** [W3DFeature.__init__]; [ui_order] is an attribute of the object, not
    an entry of the dictionary, and is left out. *)
Definition init (args kwargs : list (string * pyval)) : M unit :=
  update args ;;; update kwargs.

(** Calling the class: the new instance, unless [__init__] raises. *)
Definition new (args kwargs : list (string * pyval)) : outcome (gmap string pyval) :=
  match init args kwargs ∅ with
  | (Return _, self) => Return self
  | (Raise e, _) => Raise e
  end.

(** [W3DFeature.is_default] *)
Definition is_default (self : gmap string pyval) (key : string) : bool :=
  negb (contains self key) && contains (default_arguments cls) key.
End Feature.

(** ** XML elements ([xml.etree.ElementTree]) *)

(** An element: tag, attribute dictionary, text ([None] when there is none)
    and children.  A tree built by a program may hold any object as an
    attribute value or as text; a parsed one holds strings. *)
#[warnings="-register-all"]
Inductive element :=
| Element (tag : string) (attrib : gmap string pyval) (text : pyval)
    (children : list element).

Definition tag (e : element) : string := let 'Element t _ _ _ := e in t.
Definition attrib (e : element) : gmap string pyval := let 'Element _ a _ _ := e in a.
Definition text (e : element) : pyval := let 'Element _ _ t _ := e in t.
Definition children (e : element) : list element := let 'Element _ _ _ c := e in c.

(** [e.find(name)] for a plain tag name: the first child with that tag, or
    [None]. *)
Definition find (e : element) (name : string) : option element :=
  List.find (fun child => String.eqb (tag child) name) (children e).

(** [e.attrib[key]] *)
Definition attrib_get (e : element) (key : string) : outcome pyval :=
  match attrib e !! key with
  | Some value => Return value
  | None => Raise (KeyError (VStr key))
  end.

(** A variable that holds an element or [None]: any attribute access on
    [None] is an [AttributeError]. *)
Definition deref (node : option element) : outcome element :=
  match node with
  | Some e => Return e
  | None => Raise AttributeError
  end.

Definition append_child (parent child : element) : element :=
  let 'Element t a x c := parent in Element t a x (c ++ [child]).

Definition set_text (e : element) (value : pyval) : element :=
  let 'Element t a _ c := e in Element t a value c.

Definition set_attrib (e : element) (key : string) (value : pyval) : element :=
  let 'Element t a x c := e in Element t (<[key := value]> a) x c.

(** What is passed as [attrib=]: a dict display [{k: v}], or the set display
    [{k, v}] that [ObjectAction.toXML] and [GroupAction.toXML] write for
    the [Sound] node. *)
Inductive attrib_arg :=
| DictArg (d : gmap string pyval)
| SetArg (items : list pyval).

(** The element that [ET.SubElement(parent, tag, attrib)] creates; it
    refuses an [attrib] that is not a dict.  The new element is a child of
    [parent] from then on: [append_child] is applied where the source is
    done with the child. *)
Definition SubElement (tag : string) (attrib : attrib_arg) : outcome element :=
  match attrib with
  | DictArg d => Return (Element tag d VNone [])
  | SetArg _ => Raise TypeError
  end.

(** Unpacking a string into two targets, [key, value = s]: it must have
    exactly two characters. *)
Definition unpack2 (s : string) : outcome (string * string) :=
  match list_ascii_of_string s with
  | [a; b] => Return (String a EmptyString, String b EmptyString)
  | _ => Raise ValueError
  end.

(** [table[key]] on a dict with string keys. *)
Definition table_get (table : list (string * string)) (key : pyval) : outcome string :=
  if hashable key then
    match key with
    | VStr s =>
        match List.find (fun kv => String.eqb kv.1 s) table with
        | Some kv => Return kv.2
        | None => Raise (KeyError key)
        end
    | _ => Raise (KeyError key)
    end
  else Raise TypeError.

(** The text ['MoveCaveAction must specify a value for "key" key'], with
    the double quotes (character 34) around the key. *)
Definition quoted_key_message (key : string) : string :=
  let quote := String (ascii_of_N 34) EmptyString in
  "MoveCaveAction must specify a value for " ++ quote ++ key ++ quote ++ " key".

(** [v == "literal"] *)
Definition eq_str (v : pyval) (s : string) : bool :=
  match v with VStr s' => String.eqb s' s | _ => false end.

(** ** actions.py *)

Inductive action_class :=
| ObjectAction | GroupAction | TimelineAction | SoundAction
| EventTriggerAction | MoveCaveAction | CaveResetAction.

(** What a [fromXML] hands back: [None], an instance of an action class with
    its dictionary, or a class object. *)
Inductive pyobj :=
| PyNone
| PyInstance (c : action_class) (self : gmap string pyval)
| PyClass (c : action_class).

(** *** Class bodies *)

Definition sound_options : validator := OptionListValidator ["Play Sound"; "Stop Sound"].
Definition link_options : validator :=
  OptionListValidator ["Enable"; "Disable"; "Activate"; "Activate if enabled"].

(** The table of [ObjectAction], given the objects bound to ["duration"]
    and ["scale"]. *)
Definition ObjectAction_validators (duration scale : validator) : gmap string validator :=
  dict_display [
    ("object_name", AlwaysValid "Name of an object");
    ("duration", duration);
    ("visible", AlwaysValid "Either true or false");
    ("placement", AlwaysValid "A CavePlacement object");
    ("move_relative", AlwaysValid "Either true or false");
    ("color", IsNumericIterable (Some 3));
    ("scale", scale);
    ("sound_change", sound_options);
    ("link_change", link_options) ].

Definition GroupAction_validators (duration scale : validator) : gmap string validator :=
  dict_display [
    ("group_name", AlwaysValid "Name of a group");
    ("choose_random", AlwaysValid "Either true or false");
    ("duration", duration);
    ("visible", AlwaysValid "Either true or false");
    ("placement", AlwaysValid "A CavePlacement object");
    ("move_relative", AlwaysValid "Either true or false");
    ("color", IsNumericIterable (Some 3));
    ("scale", scale);
    ("sound_change", sound_options);
    ("link_change", link_options) ].

Definition MoveCaveAction_validators (duration : validator) : gmap string validator :=
  dict_display [
    ("relative", AlwaysValid "Either true or false");
    ("duration", duration);
    ("placement", AlwaysValid "A CavePlacement object") ].

(** The class bodies as written: the displays are evaluated entry by entry,
    and the numeric entries are the calls [IsNumeric(min_value=0)]. *)
Definition min_value_0 : list (string * pyval) := [("min_value", VInt 0)].

Definition ObjectAction_argument_validators : outcome (gmap string validator) :=
  duration <- IsNumeric_init [] min_value_0 ;;
  scale <- IsNumeric_init [] min_value_0 ;;
  Return (ObjectAction_validators duration scale).

Definition GroupAction_argument_validators : outcome (gmap string validator) :=
  duration <- IsNumeric_init [] min_value_0 ;;
  scale <- IsNumeric_init [] min_value_0 ;;
  Return (GroupAction_validators duration scale).

Definition MoveCaveAction_argument_validators : outcome (gmap string validator) :=
  duration <- IsNumeric_init [] min_value_0 ;;
  Return (MoveCaveAction_validators duration).

(** A [class] statement: the class exists once its body has been
    evaluated. *)
Definition class_statement (validators : outcome (gmap string validator))
    (defaults : gmap string pyval) : outcome feature_class :=
  v <- validators ;;
  Return {| argument_validators := v; default_arguments := defaults |}.

Definition ObjectAction_defaults : gmap string pyval :=
  dict_display [("duration", VInt 1)].
Definition GroupAction_defaults : gmap string pyval :=
  dict_display [("duration", VInt 1); ("choose_random", VBool false)].
Definition MoveCaveAction_defaults : gmap string pyval :=
  dict_display [("duration", VInt 0)].

Definition ObjectAction_statement : outcome feature_class :=
  class_statement ObjectAction_argument_validators ObjectAction_defaults.
Definition GroupAction_statement : outcome feature_class :=
  class_statement GroupAction_argument_validators GroupAction_defaults.
Definition MoveCaveAction_statement : outcome feature_class :=
  class_statement MoveCaveAction_argument_validators MoveCaveAction_defaults.

(** Instantiating a class needs the class. *)
Definition instantiate (statement : outcome feature_class)
    (args kwargs : list (string * pyval)) : outcome (gmap string pyval) :=
  cls <- statement ;;
  new cls args kwargs.

Definition link_xml_tags : list (string * string) :=
  [("Enable", "link_on"); ("Disable", "link_off"); ("Activate", "activate");
   ("Activate if enabled", "activate_if_on")].

Definition change_xml_tags : list (string * string) :=
  [("Start", "start"); ("Stop", "stop"); ("Continue", "continue");
   ("Start if not started", "start_if_not_started")].

Definition TimelineAction_class : feature_class :=
  {| argument_validators := dict_display [
       ("timeline_name", AlwaysValid "Name of a timeline");
       ("change", OptionListValidator
                    ["Start"; "Stop"; "Continue"; "Start if not started"]) ];
     default_arguments := ∅ |}.

Definition SoundAction_class : feature_class :=
  {| argument_validators := dict_display [
       ("sound_name", AlwaysValid "Name of a sound");
       ("change", OptionListValidator ["Start"; "Stop"]) ];
     default_arguments := dict_display [("change", VStr "Start")] |}.

Definition EventTriggerAction_class : feature_class :=
  {| argument_validators := dict_display [
       ("trigger_name", AlwaysValid "Name of a trigger");
       ("enable", AlwaysValid "Either true or false") ];
     default_arguments := ∅ |}.

(** [CaveResetAction] overrides neither table. *)
Definition CaveResetAction_class : feature_class := W3DFeature.

Section Actions.
(** Collaborators that live in other modules of the package:
    [xml_tools.bool2text], [xml_tools.text2bool],
    [xml_tools.text2tuple] called with [evaluator=int], and the two XML
    methods of [CavePlacement]; [py_str] is the built-in [str], which
    also formats floats. *)
Variable bool2text : pyval -> outcome pyval.
Variable text2bool : pyval -> outcome pyval.
Variable text2tuple : pyval -> outcome pyval.
Variable py_str : pyval -> string.
Variable CavePlacement_toXML : list (string * pyval) -> element -> outcome element.
Variable CavePlacement_fromXML : element -> outcome pyval.

(** The object bound to the numeric keys of the three classes whose body
    reads [IsNumeric(min_value=0)]. *)
Variable numeric : validator.

Definition ObjectAction_class : feature_class :=
  {| argument_validators := ObjectAction_validators numeric numeric;
     default_arguments := ObjectAction_defaults |}.
Definition GroupAction_class : feature_class :=
  {| argument_validators := GroupAction_validators numeric numeric;
     default_arguments := GroupAction_defaults |}.
Definition MoveCaveAction_class : feature_class :=
  {| argument_validators := MoveCaveAction_validators numeric;
     default_arguments := MoveCaveAction_defaults |}.

Definition class_of (c : action_class) : feature_class :=
  match c with
  | ObjectAction => ObjectAction_class
  | GroupAction => GroupAction_class
  | TimelineAction => TimelineAction_class
  | SoundAction => SoundAction_class
  | EventTriggerAction => EventTriggerAction_class
  | MoveCaveAction => MoveCaveAction_class
  | CaveResetAction => CaveResetAction_class
  end.

(** [action_class()] *)
Definition create (c : action_class) : outcome pyobj :=
  self <- new (class_of c) [] [] ;;
  Return (PyInstance c self).

(** [obj[key] = value]: [__setitem__] on an instance; a class object and
    [None] support no item assignment. *)
Definition obj_setitem (obj : pyobj) (key : string) (value : pyval) : outcome pyobj :=
  match obj with
  | PyInstance c self =>
      match setitem (class_of c) key value self with
      | (Return _, self') => Return (PyInstance c self')
      | (Raise e, _) => Raise e
      end
  | _ => Raise TypeError
  end.

(** [key in obj] *)
Definition obj_contains (obj : pyobj) (key : string) : outcome bool :=
  match obj with
  | PyInstance _ self => Return (contains self key)
  | _ => Raise TypeError
  end.

(** [obj.get(key, default)] *)
Definition obj_get (obj : pyobj) (key : string) (default : pyval) : outcome pyval :=
  match obj with
  | PyInstance _ self => Return (dict_get self key default)
  | PyClass _ => Raise TypeError
  | PyNone => Raise AttributeError
  end.

(** [value.toXML(node)]: the method of a placement.  The class
    [CavePlacement] has the attribute too, but unbound: [node] is taken
    for [self] and the call lacks its [parent_root], a [TypeError].  No
    other value has the attribute. *)
Definition value_toXML (value : pyval) (node : element) : outcome element :=
  match value with
  | VPlacement items => CavePlacement_toXML items node
  | VType TCavePlacement => Raise TypeError
  | _ => Raise AttributeError
  end.

(** ["{},{},{}".format( *value )] *)
Definition format3 (value : pyval) : outcome pyval :=
  match py_iter value with
  | None => Raise TypeError
  | Some (a :: b :: c :: _) =>
      Return (VStr (py_str a ++ "," ++ py_str b ++ "," ++ py_str c))
  | Some _ => Raise IndexError
  end.

(** *** [toXML] *)

(** The statements that [ObjectAction.toXML] and [GroupAction.toXML]
    have in common, each as a step on [trans_root]. *)
Section Transition.
Variable cls : feature_class.
Variable self : gmap string pyval.

Definition toXML_visible (trans_root : element) : outcome element :=
  if contains self "visible" then
    node <- SubElement "Visible" (DictArg ∅) ;;
    value <- getitem cls self "visible" ;;
    t <- bool2text value ;;
    Return (append_child trans_root (set_text node t))
  else Return trans_root.

Definition toXML_placement (trans_root : element) : outcome element :=
  if contains self "placement" then
    relative <- getitem cls self "move_relative" ;;
    node <- (if truthy relative then SubElement "MoveRel" (DictArg ∅)
             else SubElement "Movement" (DictArg ∅)) ;;
    placement <- getitem cls self "placement" ;;
    node <- value_toXML placement node ;;
    Return (append_child trans_root node)
  else Return trans_root.

Definition toXML_color (trans_root : element) : outcome element :=
  if contains self "color" then
    node <- SubElement "Color" (DictArg ∅) ;;
    color <- getitem cls self "color" ;;
    t <- format3 color ;;
    Return (append_child trans_root (set_text node t))
  else Return trans_root.

Definition toXML_scale (trans_root : element) : outcome element :=
  if contains self "scale" then
    node <- SubElement "Scale" (DictArg ∅) ;;
    scale <- getitem cls self "scale" ;;
    Return (append_child trans_root (set_text node (VStr (py_str scale))))
  else Return trans_root.

Definition toXML_sound (trans_root : element) : outcome element :=
  if contains self "sound_change" then
    change <- getitem cls self "sound_change" ;;
    node <- SubElement "Sound" (SetArg [VStr "action"; change]) ;;
    Return (append_child trans_root node)
  else Return trans_root.
End Transition.

(** Each [toXML] returns the parent with its new child, and the child,
    which is what the method returns. *)
Definition ObjectAction_toXML (self : gmap string pyval) (parent_root : element)
  : outcome (element * element) :=
  let cls := ObjectAction_class in
  name <- getitem cls self "object_name" ;;
  change_root <- SubElement "ObjectChange" (DictArg {[ "name" := name ]}) ;;
  duration <- getitem cls self "duration" ;;
  trans_root <- SubElement "Transition" (DictArg {[ "duration" := duration ]}) ;;
  trans_root <- toXML_visible cls self trans_root ;;
  trans_root <- toXML_placement cls self trans_root ;;
  trans_root <- toXML_color cls self trans_root ;;
  trans_root <- toXML_scale cls self trans_root ;;
  trans_root <- toXML_sound cls self trans_root ;;
  trans_root <-
    (if contains self "link_change" then
       node <- SubElement "LinkChange" (DictArg ∅) ;;
       change <- getitem cls self "link_change" ;;
       link_tag <- table_get link_xml_tags change ;;
       child <- SubElement link_tag (DictArg ∅) ;;
       Return (append_child trans_root (append_child node child))
     else Return trans_root) ;;
  let change_root := append_child change_root trans_root in
  Return (append_child parent_root change_root, change_root).

Definition GroupAction_toXML (self : gmap string pyval) (parent_root : element)
  : outcome (element * element) :=
  let cls := GroupAction_class in
  name <- getitem cls self "group_name" ;;
  change_root <- SubElement "GroupRef" (DictArg {[ "name" := name ]}) ;;
  change_root <-
    (if negb (is_default cls self "choose_random") then
       random <- getitem cls self "choose_random" ;;
       t <- bool2text random ;;
       Return (set_attrib change_root "random" t)
     else Return change_root) ;;
  duration <- getitem cls self "duration" ;;
  trans_root <- SubElement "Transition" (DictArg {[ "duration" := duration ]}) ;;
  trans_root <- toXML_visible cls self trans_root ;;
  trans_root <- toXML_placement cls self trans_root ;;
  trans_root <- toXML_color cls self trans_root ;;
  trans_root <- toXML_scale cls self trans_root ;;
  trans_root <- toXML_sound cls self trans_root ;;
  trans_root <-
    (if contains self "link_change" then
       node <- SubElement "LinkChange" (DictArg ∅) ;;
       change <- getitem cls self "link_change" ;;
       node <-
         (if eq_str change "Enable" then
            child <- SubElement "link_on" (DictArg ∅) ;; Return (append_child node child)
          else if eq_str change "Disable" then
            child <- SubElement "link_off" (DictArg ∅) ;; Return (append_child node child)
          else if eq_str change "Activate" then
            child <- SubElement "activate" (DictArg ∅) ;; Return (append_child node child)
          else if eq_str change "Activate if enabled" then
            child <- SubElement "activate_if_on" (DictArg ∅) ;; Return (append_child node child)
          else Return node) ;;
       Return (append_child trans_root node)
     else Return trans_root) ;;
  let change_root := append_child change_root trans_root in
  Return (append_child parent_root change_root, change_root).

Definition TimelineAction_toXML (self : gmap string pyval) (parent_root : element)
  : outcome (element * element) :=
  let cls := TimelineAction_class in
  change_root <-
    try_except
      (name <- getitem cls self "timeline_name" ;;
       SubElement "TimerChange" (DictArg {[ "name" := name ]}))
      is_KeyError
      (Raise (ConsistencyError "TimelineAction must have timeline_name key set")) ;;
  change_root <-
    try_except
      (change <- getitem cls self "change" ;;
       change_tag <- table_get change_xml_tags change ;;
       child <- SubElement change_tag (DictArg ∅) ;;
       Return (append_child change_root child))
      is_KeyError
      (Raise (ConsistencyError "TimelineAction must have change key set")) ;;
  Return (append_child parent_root change_root, change_root).

Definition SoundAction_toXML (self : gmap string pyval) (parent_root : element)
  : outcome (element * element) :=
  let cls := SoundAction_class in
  attrib <-
    try_except
      (name <- getitem cls self "sound_name" ;;
       Return ({[ "name" := name ]} : gmap string pyval))
      is_KeyError
      (Raise (ConsistencyError "SoundAction must specify sound_name to act on")) ;;
  attrib <-
    (if negb (is_default cls self "change") then
       change <- getitem cls self "change" ;;
       Return (<[ "action" := change ]> attrib)
     else Return attrib) ;;
  sound_root <- SubElement "SoundRef" (DictArg attrib) ;;
  Return (append_child parent_root sound_root, sound_root).

Definition EventTriggerAction_toXML (self : gmap string pyval) (parent_root : element)
  : outcome (element * element) :=
  let cls := EventTriggerAction_class in
  action_root <-
    try_except
      (name <- getitem cls self "trigger_name" ;;
       enable <- getitem cls self "enable" ;;
       SubElement "Event" (DictArg (dict_display [("name", name); ("enable", enable)])))
      is_KeyError
      (Raise (ConsistencyError
                "EventTriggerAction must specify both trigger_name and enable")) ;;
  Return (append_child parent_root action_root, action_root).

Definition MoveCaveAction_toXML (self : gmap string pyval) (parent_root : element)
  : outcome (element * element) :=
  let cls := MoveCaveAction_class in
  action_root <- SubElement "MoveCave" (DictArg ∅) ;;
  action_root <-
    (if negb (is_default cls self "duration") then
       duration <- getitem cls self "duration" ;;
       Return (set_attrib action_root "duration" (VStr (py_str duration)))
     else Return action_root) ;;
  relative <-
    try_except (getitem cls self "relative") is_KeyError
      (Raise (ConsistencyError
                (quoted_key_message "relative"))) ;;
  action_root <-
    (if truthy relative then
       child <- SubElement "Relative" (DictArg ∅) ;; Return (append_child action_root child)
     else
       child <- SubElement "Absolute" (DictArg ∅) ;; Return (append_child action_root child)) ;;
  action_root <-
    try_except
      (placement <- getitem cls self "placement" ;;
       value_toXML placement action_root)
      is_KeyError
      (Raise (ConsistencyError
                (quoted_key_message "placement"))) ;;
  Return (append_child parent_root action_root, action_root).

Definition CaveResetAction_toXML (self : gmap string pyval) (parent_root : element)
  : outcome (element * element) :=
  action_root <- SubElement "Restart" (DictArg ∅) ;;
  Return (append_child parent_root action_root, action_root).

(** *** [fromXML] *)

(** The statements that [ObjectAction.fromXML] and [GroupAction.fromXML]
    have in common, each as a step on [new_action]. *)
Section FromTransition.
Variable trans_root : element.

Definition fromXML_duration (new_action : pyobj) : outcome pyobj :=
  if contains (attrib trans_root) "duration" then
    value <- attrib_get trans_root "duration" ;;
    duration <- py_float value ;;
    obj_setitem new_action "duration" (VFloat duration)
  else Return new_action.

Definition fromXML_visible (new_action : pyobj) : outcome pyobj :=
  match find trans_root "Visible" with
  | Some node =>
      visible <- text2bool (text node) ;;
      obj_setitem new_action "visible" visible
  | None => Return new_action
  end.

Definition fromXML_placement (new_action : pyobj) : outcome pyobj :=
  let node := find trans_root "MoveRel" in
  moved <-
    match node with
    | Some _ =>
        new_action <- obj_setitem new_action "move_relative" (VBool true) ;;
        Return (new_action, node)
    | None => Return (new_action, find trans_root "Movement")
    end ;;
  let '(new_action, node) := moved in
  match node with
  | Some node =>
      relative <- obj_get new_action "move_relative" (VBool false) ;;
      new_action <- obj_setitem new_action "move_relative" relative ;;
      match find node "Placement" with
      | None =>
          Raise (BadCaveXML
                   "Movement or MoveRel node requires Placement child node")
      | Some place_root =>
          placement <- CavePlacement_fromXML place_root ;;
          obj_setitem new_action "placement" placement
      end
  | None => Return new_action
  end.

Definition white : pyval := VTuple [VInt 255; VInt 255; VInt 255].

Definition fromXML_color (new_action : pyobj) : outcome pyobj :=
  match find trans_root "Color" with
  | Some node =>
      try_except
        (color <- text2tuple (text node) ;;
         obj_setitem new_action "color" color)
        is_InvalidArgument
        (obj_setitem new_action "color" white)
  | None => Return new_action
  end.

Definition fromXML_scale (new_action : pyobj) : outcome pyobj :=
  match find trans_root "Scale" with
  | Some node =>
      try_except
        (stripped <- py_strip (text node) ;;
         scale <- py_float stripped ;;
         obj_setitem new_action "scale" (VFloat scale))
        is_TypeError
        (obj_setitem new_action "scale" (VInt 1))
  | None => Return new_action
  end.

Definition fromXML_sound (new_action : pyobj) : outcome pyobj :=
  match find trans_root "Sound" with
  | Some node =>
      change <- py_strip (text node) ;;
      obj_setitem new_action "sound_change" change
  | None => Return new_action
  end.

(** [for key, value in new_action.link_xml_tags:] iterates over the keys
    of the dict and unpacks each key. *)
Fixpoint fromXML_link_loop (new_action : pyobj) (node : option element)
    (keys : list string) : outcome pyobj :=
  match keys with
  | [] => Return new_action
  | item :: rest =>
      kv <- unpack2 item ;;
      let '(key, value) := kv in
      node' <- deref node ;;
      match find node' value with
      | Some _ => obj_setitem new_action "link_change" (VStr key)
      | None => fromXML_link_loop new_action node rest
      end
  end.

Definition fromXML_link (new_action : pyobj) : outcome pyobj :=
  let node := find trans_root "LinkChange" in
  fromXML_link_loop new_action node (map fst link_xml_tags).
End FromTransition.

Definition ObjectAction_fromXML (action_root : element) : outcome pyobj :=
  new_action <- create ObjectAction ;;
  new_action <-
    try_except
      (name <- attrib_get action_root "name" ;;
       obj_setitem new_action "object_name" name)
      is_KeyError
      (Raise (BadCaveXML "ObjectChange node must have name attribute set")) ;;
  trans_root <- deref (find action_root "Transition") ;;
  new_action <- fromXML_duration trans_root new_action ;;
  new_action <- fromXML_visible trans_root new_action ;;
  new_action <- fromXML_placement trans_root new_action ;;
  new_action <- fromXML_color trans_root new_action ;;
  new_action <- fromXML_scale trans_root new_action ;;
  new_action <- fromXML_sound trans_root new_action ;;
  new_action <- fromXML_link trans_root new_action ;;
  Return new_action.

Definition GroupAction_fromXML (action_root : element) : outcome pyobj :=
  new_action <- create GroupAction ;;
  new_action <-
    try_except
      (name <- attrib_get action_root "name" ;;
       obj_setitem new_action "group_name" name)
      is_KeyError
      (Raise (BadCaveXML "GroupRef node must have name attribute set")) ;;
  new_action <-
    try_except
      (random <- attrib_get action_root "random" ;;
       obj_setitem new_action "choose_random" random)
      is_KeyError
      (Return new_action) ;;
  trans_root <- deref (find action_root "Transition") ;;
  new_action <- fromXML_duration trans_root new_action ;;
  new_action <- fromXML_visible trans_root new_action ;;
  new_action <- fromXML_placement trans_root new_action ;;
  new_action <- fromXML_color trans_root new_action ;;
  new_action <- fromXML_scale trans_root new_action ;;
  new_action <- fromXML_sound trans_root new_action ;;
  new_action <- fromXML_link trans_root new_action ;;
  Return new_action.

(** The [for] loop of [TimelineAction.fromXML]; it has no [break]. *)
Fixpoint TimelineAction_loop (timer_change_root : element) (new_action : pyobj)
    (keys : list string) : outcome pyobj :=
  match keys with
  | [] => Return new_action
  | item :: rest =>
      kv <- unpack2 item ;;
      let '(key, value) := kv in
      new_action <-
        match find timer_change_root value with
        | Some _ => obj_setitem new_action "change" (VStr key)
        | None => Return new_action
        end ;;
      TimelineAction_loop timer_change_root new_action rest
  end.

(** [new_action = action_class]: the class object, not an instance. *)
Definition TimelineAction_fromXML (timer_change_root : element) : outcome pyobj :=
  let new_action := PyClass TimelineAction in
  new_action <-
    try_except
      (name <- attrib_get timer_change_root "name" ;;
       obj_setitem new_action "timeline_name" name)
      is_KeyError
      (Raise (BadCaveXML "TimerChange node must have name attribute set")) ;;
  new_action <-
    TimelineAction_loop timer_change_root new_action (map fst change_xml_tags) ;;
  has_change <- obj_contains new_action "change" ;;
  if negb has_change then
    Raise (BadCaveXML
             "TimerChange node must have child specifying timeline change")
  else Return new_action.

Definition SoundAction_fromXML (soundref_root : element) : outcome pyobj :=
  new_action <- create SoundAction ;;
  new_action <-
    try_except
      (name <- attrib_get soundref_root "name" ;;
       obj_setitem new_action "sound_name" name)
      is_KeyError
      (Raise (BadCaveXML "SoundRef node must specify name attribute")) ;;
  new_action <-
    (if contains (attrib soundref_root) "action" then
       action <- attrib_get soundref_root "action" ;;
       obj_setitem new_action "change" action
     else Return new_action) ;;
  Return new_action.

(** The body ends after the second [try] statement: the method returns
    [None]. *)
Definition EventTriggerAction_fromXML (event_root : element) : outcome pyobj :=
  new_action <- create EventTriggerAction ;;
  new_action <-
    try_except
      (name <- attrib_get event_root "name" ;;
       obj_setitem new_action "trigger_name" name)
      is_KeyError
      (Raise (BadCaveXML "Event node must specify name attribute")) ;;
  new_action <-
    try_except
      (enable <- attrib_get event_root "enable" ;;
       obj_setitem new_action "enable" enable)
      is_KeyError
      (Raise (BadCaveXML "Event node must specify enable attribute")) ;;
  Return PyNone.

Definition MoveCaveAction_fromXML (move_cave_root : element) : outcome pyobj :=
  new_action <- create MoveCaveAction ;;
  new_action <-
    (if contains (attrib move_cave_root) "duration" then
       duration <- attrib_get move_cave_root "duration" ;;
       obj_setitem new_action "duration" duration
     else Return new_action) ;;
  new_action <-
    match find move_cave_root "Relative" with
    | Some _ => obj_setitem new_action "relative" (VBool true)
    | None =>
        match find move_cave_root "Absolute" with
        | Some _ => obj_setitem new_action "relative" (VBool false)
        | None =>
            Raise (BadCaveXML
                     "MoveCave node must contain either Absolute or Relative child")
        end
    end ;;
  match find move_cave_root "Placement" with
  | None => Raise (BadCaveXML "MoveCave node must contain Placement child node")
  | Some place_node =>
      placement <- CavePlacement_fromXML place_node ;;
      new_action <- obj_setitem new_action "placement" placement ;;
      Return new_action
  end.

Definition CaveResetAction_fromXML (restart_root : element) : outcome pyobj :=
  create CaveResetAction.

(** [CaveAction.fromXML], the factory. *)
Definition CaveAction_fromXML (action_root : element) : outcome pyobj :=
  if String.eqb (tag action_root) "ObjectChange" then
    ObjectAction_fromXML action_root
  else if String.eqb (tag action_root) "GroupRef" then
    GroupAction_fromXML action_root
  else if String.eqb (tag action_root) "TimerChange" then
    TimelineAction_fromXML action_root
  else if String.eqb (tag action_root) "SoundRef" then
    SoundAction_fromXML action_root
  else if String.eqb (tag action_root) "Event" then
    EventTriggerAction_fromXML action_root
  else if String.eqb (tag action_root) "MoveCave" then
    MoveCaveAction_fromXML action_root
  else if String.eqb (tag action_root) "Restart" then
    CaveResetAction_fromXML action_root
  else
    Raise (BadCaveXML ("Indicated action " ++ tag action_root
                       ++ " is not a valid action type")).
End Actions.

(** ** The contract of [IsNumericIterable] in the specification's words *)

(** "Convertible to a floating-point number": [float] returns. *)
Definition convertible_to_float (value : pyval) : bool := returns (py_float value).

(** The value is iterable, every element is convertible to a float, and the
    element count is the required length when one is given.  This follows
    the specification, not the code; [IsNumericIterable_call] is the code. *)
Definition numeric_iterable_contract (required_length : option Z)
    (value : pyval) : bool :=
  match py_iter value with
  | None => false
  | Some values =>
      forallb convertible_to_float values
      && match required_length with
         | None => true
         | Some n => Z.of_nat (length values) =? n
         end
  end.

(** ** Example documents *)

Definition leaf (tag : string) (text : pyval) : element := Element tag ∅ text [].

(** [<ObjectChange name="Table"><Transition>...</Transition></ObjectChange>] *)
Definition ObjectChange_with (children : list element) : element :=
  Element "ObjectChange" {[ "name" := VStr "Table" ]} VNone
    [Element "Transition" ∅ VNone children].

(** [<Color>not,a,color</Color>], [<Scale/>] and [<Scale>abc</Scale>] *)
Definition bad_color : element := leaf "Color" (VStr "not,a,color").
Definition empty_scale : element := leaf "Scale" VNone.
Definition bad_scale : element := leaf "Scale" (VStr "abc").

(** [<TimerChange name="intro"><start/></TimerChange>] *)
Definition start_intro : element :=
  Element "TimerChange" {[ "name" := VStr "intro" ]} VNone [leaf "start" VNone].

(** [<Event name="door" enable="true"/>] *)
Definition enable_door : element :=
  Element "Event" (dict_display [("name", VStr "door"); ("enable", VStr "true")])
    VNone [].

(** The dictionary of [ObjectAction(object_name="Table")]. *)
Definition table_action : gmap string pyval := {[ "object_name" := VStr "Table" ]}.

(** [<ObjectChange name="Table"><Transition duration=1/></ObjectChange>],
    with the integer 1 as the attribute value. *)
Definition table_node : element :=
  Element "ObjectChange" {[ "name" := VStr "Table" ]} VNone
    [Element "Transition" {[ "duration" := VInt 1 ]} VNone []].

(** Stand-ins for the collaborators, to run the methods on the examples:
    a [text2tuple] that refuses every text, a [text2bool] that reads
    ["true"], a [bool2text] that writes it, a [str] for integers and text
    only, and a placement without content. *)
Definition refuse_text (text : pyval) : outcome pyval :=
  Raise (InvalidArgument (OtherArgument "not a tuple")).
Definition read_true (text : pyval) : outcome pyval :=
  Return (VBool (eq_str text "true")).
Definition write_bool (value : pyval) : outcome pyval :=
  Return (VStr (if truthy value then "true" else "false")).
Definition plain_str (value : pyval) : string :=
  match value with
  | VStr s => s
  | _ => "object"
  end.
Definition no_placement_toXML (items : list (string * pyval)) (node : element)
  : outcome element :=
  Return (append_child node (leaf "Placement" VNone)).
Definition no_placement_fromXML (place_root : element) : outcome pyval :=
  Return (VPlacement []).

(** A placement whose [toXML] fails on a missing key of its own. *)
Definition missing_position_toXML (items : list (string * pyval)) (node : element)
  : outcome element :=
  Raise (KeyError (VStr "position")).

(** ** Intermediate states of [MoveCaveAction] *)

(** The [MoveCave] node as [MoveCaveAction.toXML] has it when the placement
    is about to be written: the duration as text when one is set, and the
    [Relative] or [Absolute] child. *)
Definition MoveCave_before_placement (py_str : pyval -> string)
    (self : gmap string pyval) (relative : pyval) : element :=
  Element "MoveCave"
    match self !! "duration" with
    | Some duration => {[ "duration" := VStr (py_str duration) ]}
    | None => ∅
    end
    VNone
    [leaf (if truthy relative then "Relative" else "Absolute") VNone].

(** What [MoveCaveAction.fromXML] reads for [relative]: [Relative] is looked
    for first, then [Absolute]. *)
Definition MoveCave_relative_child (move_cave_root : element) : option bool :=
  match find move_cave_root "Relative" with
  | Some _ => Some true
  | None =>
      match find move_cave_root "Absolute" with
      | Some _ => Some false
      | None => None
      end
  end.

(** ** [generate_python_controller] *)

(** What the function sees of Blender: for each object, the names of its
    logic controllers, and the text files of the working directory. *)
Record blender := {
  controllers : gmap string (gset string);
  files : gmap string string
}.

Definition newline : string := String (ascii_of_N 10) EmptyString.

(** ["_".join((object_name, "controller", "{}".format(controller_count)))] *)
Definition controller_name (object_name : string) (controller_count : nat) : string :=
  object_name ++ "_" ++ "controller" ++ "_" ++ pretty controller_count.

(** The [while True] loop: the first name from [controller_count] on that
    the object has no controller for.  [fuel] bounds the number of rounds;
    [None] stands for a loop that has not left after that many. *)
Fixpoint controller_search (object_name : string) (taken : gset string)
    (fuel controller_count : nat) : option string :=
  match fuel with
  | O => None
  | S fuel =>
      if decide (controller_name object_name controller_count ∉ taken) then
        Some (controller_name object_name controller_count)
      else controller_search object_name taken fuel (S controller_count)
  end.

(** [open(name, 'a')] followed by [write(text)]: the text goes to the end of
    the file, which is created when it does not exist. *)
Definition append_file (name text : string) (fs : gmap string string)
  : gmap string string :=
  <[ name := default EmptyString (fs !! name) ++ text ]> fs.

Section Controller.
(** [bpy.ops.logic.controller_add(type='PYTHON', object=..., name=...)], the
    operator of Blender, as a change of the controllers. *)
Variable controller_add :
  string -> string -> gmap string (gset string) -> gmap string (gset string).

(** The loop is run for one round more than the object has controllers,
    which is enough for it to leave; [None] would be a loop still running
    after that. *)
Definition generate_python_controller (object_name : string) (bpy : blender)
  : option (outcome (string * blender)) :=
  match controllers bpy !! object_name with
  | None => Some (Raise (KeyError (VStr object_name)))
  | Some taken =>
      match controller_search object_name taken (S (size taken)) 0 with
      | None => None
      | Some name =>
          Some (Return
                  (name,
                   {| controllers :=
                        controller_add object_name name (controllers bpy);
                      files :=
                        append_file (object_name ++ "." ++ "py")
                          (newline ++ "def activate_" ++ name ++ ":" ++ newline
                           ++ "    pass" ++ newline)
                          (files bpy) |}))
      end
  end.
End Controller.

(** ** More examples *)

(** [SoundAction(sound_name="bell", change="Stop")],
    [TimelineAction(timeline_name="intro", change="Start")],
    [MoveCaveAction(relative=True, placement=CavePlacement())] and
    [ObjectAction(object_name="Table", link_change="Enable")]. *)
Definition bell_action : gmap string pyval :=
  dict_display [("sound_name", VStr "bell"); ("change", VStr "Stop")].
Definition intro_action : gmap string pyval :=
  dict_display [("timeline_name", VStr "intro"); ("change", VStr "Start")].
Definition move_action : gmap string pyval :=
  dict_display [("relative", VBool true); ("placement", VPlacement [])].
Definition link_action : gmap string pyval :=
  dict_display [("object_name", VStr "Table"); ("link_change", VStr "Enable")].

(** A scene with one object, which has one controller, and a Blender that
    names a new controller as asked. *)
Definition table_scene : blender :=
  {| controllers := {[ "Table_object" := {[ "Table_object_controller_0" ]} ]};
     files := ∅ |}.
Definition add_named_controller (object_name name : string)
    (cs : gmap string (gset string)) : gmap string (gset string) :=
  <[ object_name := {[ name ]} ∪ default ∅ (cs !! object_name) ]> cs.

(** ** Validated records *)

(** Every entry of the record is listed in the validator table of the
    class, and its value is one that the validator of its key accepts. *)
Definition validated (cls : feature_class) (self : gmap string pyval) : Prop :=
  forall key value,
    self !! key = Some value ->
    exists validator,
      argument_validators cls !! key = Some validator
      /\ validator_call validator value = Return true.

(** The pair [(key, value)] is one that [__setitem__] stores. *)
Definition accepted (cls : feature_class) (kv : string * pyval) : Prop :=
  exists validator,
    argument_validators cls !! kv.1 = Some validator
    /\ validator_call validator kv.2 = Return true.

(** * Properties *)

(** ** The outcome monad *)

Lemma bind_never_returns {A B} (m : outcome A) (k : A -> outcome B) :
  (forall a, returns (k a) = false) -> returns (bind m k) = false.
Proof. intros Hk. destruct m; simpl; [apply Hk | reflexivity]. Qed.

(** ** Dictionaries *)

Lemma contains_true {V} (d : gmap string V) (key : string) :
  contains d key = true <-> is_Some (d !! key).
Proof. unfold contains. apply bool_decide_eq_true. Qed.

Lemma contains_false {V} (d : gmap string V) (key : string) :
  contains d key = false <-> d !! key = None.
Proof.
  unfold contains. rewrite bool_decide_eq_false.
  rewrite <- eq_None_not_Some. reflexivity.
Qed.

(** ** Features *)

Section FeatureFacts.
Variable cls : feature_class.
Implicit Types (self : gmap string pyval) (key : string) (value : pyval).

Lemma setitem_unknown_key key value self :
  argument_validators cls !! key = None ->
  setitem cls key value self
  = (Raise (InvalidArgument (NotAValidOption key)), self).
Proof.
  intros Hkey. unfold setitem.
  apply contains_false in Hkey. rewrite Hkey. reflexivity.
Qed.

Lemma setitem_known_key key value self validator :
  argument_validators cls !! key = Some validator ->
  setitem cls key value self
  = match validator_call validator value with
    | Raise e => (Raise e, self)
    | Return ok =>
        if ok then (Return tt, <[key := value]> self)
        else (Raise (InvalidArgument (NotAValidValue value key)), self)
    end.
Proof.
  intros Hkey. unfold setitem.
  assert (contains (argument_validators cls) key = true) as ->
    by (apply contains_true; eauto).
  rewrite Hkey. simpl.
  destruct (validator_call validator value) as [[|]|]; reflexivity.
Qed.

(** A failed assignment writes nothing. *)
Lemma setitem_failure_unchanged key value self :
  (setitem cls key value self).1 <> Return tt ->
  (setitem cls key value self).2 = self.
Proof.
  destruct (argument_validators cls !! key) as [validator|] eqn:Hkey.
  - rewrite (setitem_known_key _ _ _ _ Hkey).
    destruct (validator_call validator value) as [[|]|]; simpl; congruence.
  - rewrite (setitem_unknown_key _ _ _ Hkey). reflexivity.
Qed.

(** Assignment of [value] under [key] in a feature of any class, when the
    validator answers.  A key outside the validator table, and a value on
    which the key's validator returns false, each raise [InvalidArgument]
    and leave the record as it was; a value on which the validator returns
    true is stored under the key.  The assignment succeeds exactly when
    the key is in the table and its validator returns true, and every
    failure leaves the record unchanged. *)
Theorem setitem_spec key value self :
  (argument_validators cls !! key = None ->
     setitem cls key value self
     = (Raise (InvalidArgument (NotAValidOption key)), self))
  /\ (forall validator,
        argument_validators cls !! key = Some validator ->
        validator_call validator value = Return false ->
        setitem cls key value self
        = (Raise (InvalidArgument (NotAValidValue value key)), self))
  /\ (forall validator,
        argument_validators cls !! key = Some validator ->
        validator_call validator value = Return true ->
        setitem cls key value self = (Return tt, <[key := value]> self))
  /\ ((setitem cls key value self).1 = Return tt <->
      exists validator,
        argument_validators cls !! key = Some validator
        /\ validator_call validator value = Return true)
  /\ ((setitem cls key value self).1 <> Return tt ->
      (setitem cls key value self).2 = self).
Proof.
  split; [apply setitem_unknown_key|].
  split; [intros v Hkey Hv; rewrite (setitem_known_key _ _ _ _ Hkey), Hv; reflexivity|].
  split; [intros v Hkey Hv; rewrite (setitem_known_key _ _ _ _ Hkey), Hv; reflexivity|].
  split; [|apply setitem_failure_unchanged].
  destruct (argument_validators cls !! key) as [validator|] eqn:Hkey.
  - rewrite (setitem_known_key _ _ _ _ Hkey). split.
    + intros Hok. exists validator. split; [reflexivity|].
      destruct (validator_call validator value) as [[|]|]; simpl in Hok;
        congruence.
    + intros (v & Hv & Hcall). injection Hv as <-. rewrite Hcall. reflexivity.
  - rewrite (setitem_unknown_key _ _ _ Hkey). simpl. split; [discriminate|].
    intros (v & Hv & _). discriminate.
Qed.

Lemma is_default_spec self key :
  is_default cls self key = true <->
  self !! key = None /\ is_Some (default_arguments cls !! key).
Proof.
  unfold is_default. rewrite andb_true_iff, negb_true_iff.
  rewrite contains_false, contains_true. reflexivity.
Qed.

Lemma setitem_stores key value self self' :
  setitem cls key value self = (Return tt, self') ->
  self' !! key = Some value.
Proof.
  destruct (argument_validators cls !! key) as [validator|] eqn:Hkey.
  - rewrite (setitem_known_key _ _ _ _ Hkey).
    destruct (validator_call validator value) as [[|]|]; intros [= <-].
    apply lookup_insert_eq.
  - rewrite (setitem_unknown_key _ _ _ Hkey). discriminate.
Qed.

(** C4: reading and [is_default] on a record in which [key] is unset, as
    it is in a fresh record.  Reading gives the default of the key when
    the defaults table has one, and raises [KeyError] otherwise;
    [is_default] holds of a record and a key exactly when the key is
    absent from the record and present in the defaults table; once an
    assignment to the key has succeeded, [is_default] is false. *)
Theorem default_fallback self key :
  self !! key = None ->
  getitem cls self key
  = match default_arguments cls !! key with
    | Some default => Return default
    | None => Raise (KeyError (VStr key))
    end
  /\ (forall record,
        is_default cls record key = true <->
        record !! key = None /\ is_Some (default_arguments cls !! key))
  /\ (forall value self',
        setitem cls key value self = (Return tt, self') ->
        is_default cls self' key = false).
Proof.
  intros Hunset. split; [|split].
  - unfold getitem, missing. rewrite Hunset. reflexivity.
  - intros record. apply is_default_spec.
  - intros value self' Hset. apply setitem_stores in Hset.
    unfold is_default.
    assert (contains self' key = true) as ->
      by (apply contains_true; eauto).
    reflexivity.
Qed.

(** A new feature made without arguments has every key unset. *)
Lemma new_empty : new cls [] [] = Return ∅.
Proof. reflexivity. Qed.
End FeatureFacts.

(** C3: an assignment whose validator raises.  [__setitem__] calls the
    validator outside any [try], so the exception of the validator leaves
    the method as it is: the assignment neither raises [InvalidArgument]
    nor stores the value.  [SoundAction()["change"] = []] raises the
    [TypeError] of hashing the list and leaves the record empty, and
    [SoundAction()["change"] = "Stop"] shows the key is one of the table. *)
Theorem setitem_validator_raises :
  setitem SoundAction_class "change" (VList []) ∅ = (Raise TypeError, ∅)
  /\ setitem SoundAction_class "change" (VStr "Stop") ∅
     = (Return tt, <[ "change" := VStr "Stop" ]> ∅)
  /\ forall cls key value self validator e,
       argument_validators cls !! key = Some validator ->
       validator_call validator value = Raise e ->
       setitem cls key value self = (Raise e, self).
Proof.
  split; [reflexivity|]. split; [reflexivity|].
  intros cls key value self validator e Hkey Hcall.
  rewrite (setitem_known_key _ _ _ _ _ Hkey), Hcall. reflexivity.
Qed.

(** ** Validators *)

Lemma AlwaysValid_call_true (value : pyval) : AlwaysValid_call value = Return true.
Proof. reflexivity. Qed.

(** The loop of [IsNumericIterable] stops at its first item with the
    [TypeError] of [IsNumeric(value)]. *)
Lemma IsNumericIterable_loop_cons (value : pyval) (rest : list pyval) :
  IsNumericIterable_loop (value :: rest) = Raise TypeError.
Proof. reflexivity. Qed.

Lemma IsNumericIterable_nonempty (required_length : option Z) (iterable : pyval)
    (value : pyval) (rest : list pyval) :
  py_iter iterable = Some (value :: rest) ->
  IsNumericIterable_call required_length iterable = Return false.
Proof.
  intros Hiter. unfold IsNumericIterable_call. rewrite Hiter.
  rewrite IsNumericIterable_loop_cons. reflexivity.
Qed.

Lemma IsNumericIterable_not_iterable (required_length : option Z) (value : pyval) :
  py_iter value = None ->
  IsNumericIterable_call required_length value = Return false.
Proof. intros Hiter. unfold IsNumericIterable_call. rewrite Hiter. reflexivity. Qed.

Lemma IsNumericIterable_empty (required_length : option Z) (iterable : pyval) :
  py_iter iterable = Some [] ->
  IsNumericIterable_call required_length iterable
  = Return match required_length with
           | None => true
           | Some n => 0 =? n
           end.
Proof.
  intros Hiter. unfold IsNumericIterable_call, py_len. rewrite Hiter. simpl.
  destruct required_length; reflexivity.
Qed.

(** [IsNumericIterable] never raises. *)
Lemma IsNumericIterable_call_returns (required_length : option Z) (value : pyval) :
  returns (IsNumericIterable_call required_length value) = true.
Proof.
  destruct (py_iter value) as [[|item rest]|] eqn:Hiter.
  - rewrite (IsNumericIterable_empty _ _ Hiter). reflexivity.
  - rewrite (IsNumericIterable_nonempty _ _ _ _ Hiter). reflexivity.
  - rewrite (IsNumericIterable_not_iterable _ _ Hiter). reflexivity.
Qed.

(** What the code of [IsNumericIterable] accepts: the iterables without any
    element, when no length or the length 0 is required. *)
Lemma IsNumericIterable_accepts (required_length : option Z) (value : pyval) :
  IsNumericIterable_call required_length value = Return true <->
  py_iter value = Some []
  /\ (required_length = None \/ required_length = Some 0).
Proof.
  destruct (py_iter value) as [[|item rest]|] eqn:Hiter.
  - rewrite (IsNumericIterable_empty _ _ Hiter).
    destruct required_length as [n|].
    + split.
      * intros H. assert ((0 =? n) = true) as Hn by congruence.
        apply Z.eqb_eq in Hn. subst n. auto.
      * intros [_ [H|H]]; [discriminate | injection H as ->; reflexivity].
    + split; auto.
  - rewrite (IsNumericIterable_nonempty _ _ _ _ Hiter).
    split; [discriminate | intros [? _]; discriminate].
  - rewrite (IsNumericIterable_not_iterable _ _ Hiter).
    split; [discriminate | intros [? _]; discriminate].
Qed.

(** C5: calls of validators that raise instead of returning false.
    [IsNumeric] on the text "abc" raises [ValueError]; [CheckType(int)] on
    the integer 5 raises [TypeError]; an [OptionListValidator] on a list
    raises [TypeError]. *)
Theorem validator_call_raises :
  validator_call IsNumeric (VStr "abc") = Raise ValueError
  /\ validator_call (CheckType Tint) (VInt 5) = Raise TypeError
  /\ validator_call (OptionListValidator ["Start"; "Stop"]) (VList [])
     = Raise TypeError.
Proof. repeat split. Qed.

(** C6: [IsNumericIterable(required_length=3)] returns false on the list
    [[1, 2, 3]], which is iterable, holds three elements and only elements
    that [float] converts. *)
Theorem IsNumericIterable_rejects_numbers :
  IsNumericIterable_call (Some 3) (VList [VInt 1; VInt 2; VInt 3]) = Return false
  /\ numeric_iterable_contract (Some 3) (VList [VInt 1; VInt 2; VInt 3]) = true.
Proof. split; reflexivity. Qed.

(** A list with a text item is refused as well. *)
Lemma IsNumericIterable_rejects_text_item :
  IsNumericIterable_call (Some 3) (VList [VStr "a"; VInt 1; VInt 2]) = Return false.
Proof. reflexivity. Qed.

(** ** Class bodies *)

Lemma IsNumeric_init_keyword (key : string) (value : pyval) :
  IsNumeric_init [] [(key, value)] = Raise TypeError.
Proof. reflexivity. Qed.

(** C10: [IsNumeric(min_value=0)] raises [TypeError], so does the
    evaluation of the validator tables of [ObjectAction], [GroupAction] and
    [MoveCaveAction], so do the three class statements, and so does every
    attempt to make an instance of one of the three. *)
Theorem numeric_classes_undefined :
  IsNumeric_init [] min_value_0 = Raise TypeError
  /\ ObjectAction_argument_validators = Raise TypeError
  /\ GroupAction_argument_validators = Raise TypeError
  /\ MoveCaveAction_argument_validators = Raise TypeError
  /\ ObjectAction_statement = Raise TypeError
  /\ GroupAction_statement = Raise TypeError
  /\ MoveCaveAction_statement = Raise TypeError
  /\ forall args kwargs,
       instantiate ObjectAction_statement args kwargs = Raise TypeError
       /\ instantiate GroupAction_statement args kwargs = Raise TypeError
       /\ instantiate MoveCaveAction_statement args kwargs = Raise TypeError.
Proof. repeat split. Qed.

(** ** Actions *)

Section ActionFacts.
Variable bool2text : pyval -> outcome pyval.
Variable text2bool : pyval -> outcome pyval.
Variable text2tuple : pyval -> outcome pyval.
Variable py_str : pyval -> string.
Variable CavePlacement_toXML : list (string * pyval) -> element -> outcome element.
Variable CavePlacement_fromXML : element -> outcome pyval.
Variable numeric : validator.

(** *** Assignments that cannot succeed *)

(** A class whose table checks ["color"] with [IsNumericIterable(3)], or
    does not list the key, refuses every color: the validator accepts an
    iterable only if it is empty and has three elements. *)
Lemma setitem_color_refused (cls : feature_class) (value : pyval)
    (self : gmap string pyval) :
  argument_validators cls !! "color" = Some (IsNumericIterable (Some 3))
  \/ argument_validators cls !! "color" = None ->
  returns (setitem cls "color" value self).1 = false.
Proof.
  intros [Hkey|Hkey].
  - rewrite (setitem_known_key _ _ _ _ _ Hkey). simpl.
    pose proof (IsNumericIterable_accepts (Some 3) value) as [Haccept _].
    destruct (IsNumericIterable_call (Some 3) value) as [[|]|];
      try reflexivity.
    destruct (Haccept eq_refl) as [_ [|]]; discriminate.
  - rewrite (setitem_unknown_key _ _ _ _ Hkey). reflexivity.
Qed.

(** No action can hold a color. *)
Lemma color_never_set (obj : pyobj) (value : pyval) :
  returns (obj_setitem numeric obj "color" value) = false.
Proof.
  destruct obj as [|c self|c]; try reflexivity.
  unfold obj_setitem.
  pose proof (setitem_color_refused (class_of numeric c) value self) as Hrefused.
  destruct (setitem (class_of numeric c) "color" value self) as [[[]|e] self'];
    [|reflexivity].
  apply Hrefused. destruct c; (left; reflexivity) || (right; reflexivity).
Qed.

Lemma fromXML_color_never_returns (trans_root node : element) (new_action : pyobj) :
  find trans_root "Color" = Some node ->
  returns (fromXML_color text2tuple numeric trans_root new_action) = false.
Proof.
  intros Hfind. unfold fromXML_color. rewrite Hfind.
  pose proof (color_never_set new_action white) as Hwhite.
  destruct (text2tuple (text node)) as [color|e]; simpl.
  - pose proof (color_never_set new_action color) as Hcolor.
    destruct (obj_setitem numeric new_action "color" color) as [|e];
      [discriminate|].
    simpl. destruct (is_InvalidArgument e); [exact Hwhite | reflexivity].
  - destruct (is_InvalidArgument e); [exact Hwhite | reflexivity].
Qed.

(** The loop over [link_xml_tags] fails on its first key, whatever the
    document holds. *)
Lemma fromXML_link_raises (trans_root : element) (new_action : pyobj) :
  fromXML_link numeric trans_root new_action = Raise ValueError.
Proof. reflexivity. Qed.

(** *** [fromXML] of each class *)

Lemma ObjectAction_fromXML_never_returns (action_root : element) :
  returns (ObjectAction_fromXML text2bool text2tuple CavePlacement_fromXML
             numeric action_root) = false.
Proof.
  unfold ObjectAction_fromXML.
  repeat first [reflexivity | apply bind_never_returns; intros ?].
Qed.

Lemma GroupAction_fromXML_never_returns (action_root : element) :
  returns (GroupAction_fromXML text2bool text2tuple CavePlacement_fromXML
             numeric action_root) = false.
Proof.
  unfold GroupAction_fromXML.
  repeat first [reflexivity | apply bind_never_returns; intros ?].
Qed.

Lemma TimelineAction_fromXML_raises (timer_change_root : element) :
  TimelineAction_fromXML numeric timer_change_root
  = match attrib timer_change_root !! "name" with
    | Some _ => Raise TypeError
    | None => Raise (BadCaveXML "TimerChange node must have name attribute set")
    end.
Proof.
  unfold TimelineAction_fromXML, attrib_get.
  destruct (attrib timer_change_root !! "name"); reflexivity.
Qed.

(** [SoundAction.fromXML] on a node with a name and no [action] attribute
    gives an instance that holds the name. *)
Lemma SoundAction_fromXML_name (soundref_root : element) (name : pyval) :
  attrib soundref_root !! "name" = Some name ->
  attrib soundref_root !! "action" = None ->
  SoundAction_fromXML numeric soundref_root
  = Return (PyInstance SoundAction {[ "sound_name" := name ]}).
Proof.
  intros Hname Haction. unfold SoundAction_fromXML, attrib_get.
  apply contains_false in Haction. rewrite Hname, Haction. reflexivity.
Qed.

Lemma CaveResetAction_fromXML_instance (restart_root : element) :
  CaveResetAction_fromXML numeric restart_root
  = Return (PyInstance CaveResetAction ∅).
Proof. reflexivity. Qed.

(** C7: on an [Event] node that carries a [name] and an [enable]
    attribute, [EventTriggerAction.fromXML] returns [None]. *)
Theorem EventTriggerAction_fromXML_returns_None (event_root : element)
    (name enable : pyval) :
  attrib event_root !! "name" = Some name ->
  attrib event_root !! "enable" = Some enable ->
  EventTriggerAction_fromXML numeric event_root = Return PyNone.
Proof.
  intros Hname Henable. unfold EventTriggerAction_fromXML, attrib_get.
  rewrite Hname, Henable. reflexivity.
Qed.

(** Whatever the node, [EventTriggerAction.fromXML] hands back no
    instance: it raises or returns [None]. *)
Lemma EventTriggerAction_fromXML_no_instance (event_root : element) :
  EventTriggerAction_fromXML numeric event_root = Return PyNone
  \/ returns (EventTriggerAction_fromXML numeric event_root) = false.
Proof.
  unfold EventTriggerAction_fromXML, attrib_get.
  destruct (attrib event_root !! "name");
    destruct (attrib event_root !! "enable"); auto.
Qed.

(** *** The factory *)

(** X25: A node whose tag is none of the seven known ones is refused with
    [BadCaveXML], and the text of the exception names the tag. *)
Lemma CaveAction_fromXML_unknown_tag (action_root : element) :
  tag action_root ∉ ["ObjectChange"; "GroupRef"; "TimerChange"; "SoundRef";
                     "Event"; "MoveCave"; "Restart"] ->
  CaveAction_fromXML text2bool text2tuple CavePlacement_fromXML numeric action_root
  = Raise (BadCaveXML ("Indicated action " ++ tag action_root
                       ++ " is not a valid action type")).
Proof.
  intros Htag. unfold CaveAction_fromXML.
  repeat match goal with
         | |- context [String.eqb (tag action_root) ?s] =>
             destruct (String.eqb_spec (tag action_root) s) as [Heq|_];
             [exfalso; apply Htag; rewrite Heq; set_solver|]
         end.
  reflexivity.
Qed.

Lemma CaveAction_fromXML_Restart (action_root : element) :
  tag action_root = "Restart" ->
  CaveAction_fromXML text2bool text2tuple CavePlacement_fromXML numeric action_root
  = Return (PyInstance CaveResetAction ∅).
Proof. intros Htag. unfold CaveAction_fromXML. rewrite Htag. reflexivity. Qed.

Lemma CaveAction_fromXML_TimerChange (action_root : element) :
  tag action_root = "TimerChange" ->
  CaveAction_fromXML text2bool text2tuple CavePlacement_fromXML numeric action_root
  = TimelineAction_fromXML numeric action_root.
Proof. intros Htag. unfold CaveAction_fromXML. rewrite Htag. reflexivity. Qed.

(** C2: the factory on [<TimerChange name="intro"><start/></TimerChange>],
    a node with a known tag, raises [TypeError]; it returns no
    [TimelineAction]. *)
Theorem CaveAction_fromXML_TimerChange_raises :
  CaveAction_fromXML text2bool text2tuple CavePlacement_fromXML numeric start_intro
  = Raise TypeError.
Proof. reflexivity. Qed.

(** *** [toXML] with a required key unset *)

(** C8: [ObjectAction.toXML] on an instance whose [object_name] was never
    set raises [KeyError], the exception of the failed lookup. *)
Theorem ObjectAction_toXML_unset_name (self : gmap string pyval)
    (parent_root : element) :
  self !! "object_name" = None ->
  ObjectAction_toXML bool2text py_str CavePlacement_toXML numeric self parent_root
  = Raise (KeyError (VStr "object_name")).
Proof.
  intros Hunset. unfold ObjectAction_toXML, getitem.
  rewrite Hunset. reflexivity.
Qed.

Lemma GroupAction_toXML_unset_name (self : gmap string pyval)
    (parent_root : element) :
  self !! "group_name" = None ->
  GroupAction_toXML bool2text py_str CavePlacement_toXML numeric self parent_root
  = Raise (KeyError (VStr "group_name")).
Proof.
  intros Hunset. unfold GroupAction_toXML, getitem.
  rewrite Hunset. reflexivity.
Qed.

(** The other classes catch the [KeyError] and raise [ConsistencyError]. *)
Lemma TimelineAction_toXML_unset_name (self : gmap string pyval)
    (parent_root : element) :
  self !! "timeline_name" = None ->
  TimelineAction_toXML self parent_root
  = Raise (ConsistencyError "TimelineAction must have timeline_name key set").
Proof.
  intros Hunset. unfold TimelineAction_toXML, getitem.
  rewrite Hunset. reflexivity.
Qed.

Lemma TimelineAction_toXML_unset_change (self : gmap string pyval)
    (parent_root : element) (name : pyval) :
  self !! "timeline_name" = Some name ->
  self !! "change" = None ->
  TimelineAction_toXML self parent_root
  = Raise (ConsistencyError "TimelineAction must have change key set").
Proof.
  intros Hname Hunset. unfold TimelineAction_toXML, getitem.
  rewrite Hname, Hunset. reflexivity.
Qed.

Lemma SoundAction_toXML_unset_name (self : gmap string pyval)
    (parent_root : element) :
  self !! "sound_name" = None ->
  SoundAction_toXML self parent_root
  = Raise (ConsistencyError "SoundAction must specify sound_name to act on").
Proof.
  intros Hunset. unfold SoundAction_toXML, getitem.
  rewrite Hunset. reflexivity.
Qed.

Lemma EventTriggerAction_toXML_unset (self : gmap string pyval)
    (parent_root : element) :
  self !! "trigger_name" = None \/ self !! "enable" = None ->
  EventTriggerAction_toXML self parent_root
  = Raise (ConsistencyError
             "EventTriggerAction must specify both trigger_name and enable").
Proof.
  intros Hunset. unfold EventTriggerAction_toXML, getitem.
  destruct Hunset as [Hunset|Hunset]; rewrite Hunset;
    [|destruct (self !! "trigger_name")]; reflexivity.
Qed.

Lemma MoveCaveAction_toXML_unset_relative (self : gmap string pyval)
    (parent_root : element) :
  self !! "relative" = None ->
  MoveCaveAction_toXML py_str CavePlacement_toXML numeric self parent_root
  = Raise (ConsistencyError (quoted_key_message "relative")).
Proof.
  intros Hunset. unfold MoveCaveAction_toXML, getitem.
  rewrite Hunset. simpl bind at 1.
  destruct (negb (is_default (MoveCaveAction_class numeric) self "duration"));
    [destruct (self !! "duration")|]; reflexivity.
Qed.

(** *** Lenient recovery *)

(** C9: [ObjectAction.fromXML] raises on each of the three documents.  With
    [<Color>not,a,color</Color>], when [text2tuple] refuses the text with
    [InvalidArgument], the fallback assignment of (255, 255, 255) raises
    [InvalidArgument] itself; with [<Scale/>] the method raises
    [AttributeError]; with [<Scale>abc</Scale>] it raises [ValueError]. *)
Theorem lenient_recovery_raises :
  (forall what,
     text2tuple (VStr "not,a,color") = Raise (InvalidArgument what) ->
     ObjectAction_fromXML text2bool text2tuple CavePlacement_fromXML numeric
       (ObjectChange_with [bad_color])
     = Raise (InvalidArgument (NotAValidValue white "color")))
  /\ ObjectAction_fromXML text2bool text2tuple CavePlacement_fromXML numeric
       (ObjectChange_with [empty_scale])
     = Raise AttributeError
  /\ ObjectAction_fromXML text2bool text2tuple CavePlacement_fromXML numeric
       (ObjectChange_with [bad_scale])
     = Raise ValueError.
Proof.
  split; [|split; reflexivity].
  intros what Hrefuse.
  unfold ObjectAction_fromXML, fromXML_color. simpl.
  rewrite Hrefuse. reflexivity.
Qed.

(** *** Round trip *)

(** C1: [ObjectAction(object_name="Table")] is written as
    [<ObjectChange name="Table"><Transition duration=1/></ObjectChange>],
    and [ObjectAction.fromXML] does not return on that node; with
    [IsNumeric] as the validator of the numeric keys it raises
    [ValueError]. *)
Theorem ObjectAction_round_trip_raises (parent_root : element) :
  ObjectAction_toXML bool2text py_str CavePlacement_toXML numeric
    table_action parent_root
  = Return (append_child parent_root table_node, table_node)
  /\ returns (ObjectAction_fromXML text2bool text2tuple CavePlacement_fromXML
                numeric table_node) = false
  /\ ObjectAction_fromXML text2bool text2tuple CavePlacement_fromXML
       IsNumeric table_node = Raise ValueError.
Proof.
  split; [reflexivity|].
  split; [apply ObjectAction_fromXML_never_returns | reflexivity].
Qed.
End ActionFacts.

(** ** The theorems at the examples *)

Lemma setitem_spec_witness :
  setitem SoundAction_class "change" (VStr "Stop") ∅
  = (Return tt, <["change" := VStr "Stop"]> ∅)
  /\ setitem SoundAction_class "change" (VStr "Pause") ∅
     = (Raise (InvalidArgument (NotAValidValue (VStr "Pause") "change")), ∅)
  /\ setitem SoundAction_class "volume" (VInt 3) ∅
     = (Raise (InvalidArgument (NotAValidOption "volume")), ∅).
Proof.
  pose proof (setitem_spec SoundAction_class "change" (VStr "Stop") ∅)
    as (_ & _ & Hstore & _).
  pose proof (setitem_spec SoundAction_class "change" (VStr "Pause") ∅)
    as (_ & Hreject & _).
  pose proof (setitem_spec SoundAction_class "volume" (VInt 3) ∅)
    as (Hunknown & _).
  split; [|split].
  - apply (Hstore (OptionListValidator ["Start"; "Stop"])); reflexivity.
  - apply (Hreject (OptionListValidator ["Start"; "Stop"])); reflexivity.
  - apply Hunknown. reflexivity.
Defined.

Lemma default_fallback_witness :
  getitem SoundAction_class ∅ "change" = Return (VStr "Start")
  /\ getitem SoundAction_class ∅ "sound_name" = Raise (KeyError (VStr "sound_name")).
Proof.
  split.
  - apply (default_fallback SoundAction_class ∅ "change"). reflexivity.
  - apply (default_fallback SoundAction_class ∅ "sound_name"). reflexivity.
Defined.

Lemma EventTriggerAction_fromXML_returns_None_witness :
  EventTriggerAction_fromXML IsNumeric enable_door = Return PyNone.
Proof.
  apply (EventTriggerAction_fromXML_returns_None IsNumeric enable_door
           (VStr "door") (VStr "true")); reflexivity.
Defined.

Lemma ObjectAction_toXML_unset_name_witness :
  ObjectAction_toXML write_bool plain_str no_placement_toXML IsNumeric
    ∅ (leaf "root" VNone)
  = Raise (KeyError (VStr "object_name")).
Proof.
  apply (ObjectAction_toXML_unset_name write_bool plain_str no_placement_toXML
           IsNumeric ∅ (leaf "root" VNone)).
  reflexivity.
Defined.

Lemma lenient_recovery_raises_witness :
  ObjectAction_fromXML read_true refuse_text no_placement_fromXML IsNumeric
    (ObjectChange_with [bad_color])
  = Raise (InvalidArgument (NotAValidValue white "color")).
Proof.
  apply (proj1 (lenient_recovery_raises read_true refuse_text
                  no_placement_fromXML IsNumeric)
           (OtherArgument "not a tuple")).
  reflexivity.
Defined.

(** * Further properties *)

(** ** Validators *)

(** X1: [IsNumericIterable] never raises, and what it returns is decided by the
    emptiness of the iterable alone: true for an iterable without elements
    when no length or the length 0 is required, false for everything
    else. *)
Theorem IsNumericIterable_call_only_empty (required_length : option Z)
    (value : pyval) :
  IsNumericIterable_call required_length value
  = Return match py_iter value with
           | Some [] =>
               match required_length with
               | None => true
               | Some n => 0 =? n
               end
           | _ => false
           end.
Proof.
  destruct (py_iter value) as [[|item rest]|] eqn:Hiter.
  - apply IsNumericIterable_empty, Hiter.
  - apply (IsNumericIterable_nonempty _ _ _ _ Hiter).
  - apply IsNumericIterable_not_iterable, Hiter.
Qed.

Lemma float_of_int_not_TypeError (z : Z) : float_of_int z <> Raise TypeError.
Proof.
  unfold float_of_int.
  destruct (binary_normalize prec emax z 0 false); discriminate.
Qed.

(** X2: [IsNumeric] returns false exactly on [None], tuples, lists, classes and
    placements.  On text it never returns false: it returns true when
    [float] reads the text and raises [ValueError] when it does not. *)
Theorem IsNumeric_call_false (value : pyval) :
  (IsNumeric_call value = Return false <->
   type_of value ∈ [TNoneType; Ttuple; Tlist; Ttype; TCavePlacement])
  /\ (forall s,
        value = VStr s ->
        IsNumeric_call value
        = match float_of_text s with
          | Some _ => Return true
          | None => Raise ValueError
          end).
Proof.
  assert (forall t, t ∈ [TNoneType; Ttuple; Tlist; Ttype; TCavePlacement] <->
                    t = TNoneType \/ t = Ttuple \/ t = Tlist \/ t = Ttype
                    \/ t = TCavePlacement) as Hmem.
  { intros t. rewrite list_elem_of_In. simpl. intuition congruence. }
  split.
  - rewrite Hmem.
    destruct value as [|b|z|f|s|l|l|t|l]; simpl;
      try (split; [intros _; tauto | reflexivity]).
    + unfold IsNumeric_call, py_float.
      pose proof (float_of_int_not_TypeError (if b then 1 else 0)) as Hint.
      destruct (float_of_int (if b then 1 else 0)) as [f|[]]; simpl;
        (split; [discriminate || congruence | intuition discriminate]).
    + unfold IsNumeric_call, py_float.
      pose proof (float_of_int_not_TypeError z) as Hint.
      destruct (float_of_int z) as [f|[]]; simpl;
        (split; [discriminate || congruence | intuition discriminate]).
    + split; [discriminate | intuition discriminate].
    + unfold IsNumeric_call, py_float.
      destruct (float_of_text s); simpl;
        (split; [discriminate | intuition discriminate]).
  - intros s ->. unfold IsNumeric_call, py_float.
    destruct (float_of_text s); reflexivity.
Qed.

Lemma existsb_eqb_elem_of (s : string) (options : list string) :
  existsb (String.eqb s) options = true <-> s ∈ options.
Proof.
  rewrite existsb_exists. split.
  - intros (x & Hin & Heq). apply String.eqb_eq in Heq. subst x.
    apply list_elem_of_In, Hin.
  - intros Hin. exists s. split; [apply list_elem_of_In, Hin | apply String.eqb_refl].
Qed.

(** X3: An [OptionListValidator] accepts exactly the strings among its options,
    and its answer depends on the options as a set: two lists with the same
    elements give the same validator. *)
Theorem OptionListValidator_call_set (options options' : list string)
    (value : pyval) :
  (OptionListValidator_call options value = Return true <->
   exists s, value = VStr s /\ s ∈ options)
  /\ ((forall s, s ∈ options <-> s ∈ options') ->
      OptionListValidator_call options value
      = OptionListValidator_call options' value).
Proof.
  split.
  - unfold OptionListValidator_call.
    destruct value as [|b|z|f|s|l|l|t|l]; simpl;
      try (split; [discriminate | intros (s' & Heq & _); discriminate]).
    + split.
      * intros [= Hin]. exists s. split; [reflexivity|].
        apply existsb_eqb_elem_of, Hin.
      * intros (s' & [= <-] & Hin). f_equal. apply existsb_eqb_elem_of, Hin.
    + destruct (forallb hashable l);
        (split; [discriminate | intros (s' & Heq & _); discriminate]).
  - intros Hsame. unfold OptionListValidator_call.
    destruct (hashable value); [|reflexivity].
    destruct value; try reflexivity. f_equal.
    apply eq_true_iff_eq. rewrite !existsb_eqb_elem_of. apply Hsame.
Qed.

(** With the arguments of [isinstance] swapped, only the type of the first
    one matters, and a stored class is always of type [type]. *)
Lemma py_isinstance_type_of (obj obj' : pyval) :
  type_of obj = type_of obj' ->
  forall classinfo, py_isinstance obj classinfo = py_isinstance obj' classinfo.
Proof.
  intros Htype. fix IH 1. intros [| | | | |l| | |]; simpl; try reflexivity.
  - induction l as [|c l IHl]; [reflexivity|].
    rewrite (IH c). destruct (py_isinstance obj' c) as [[|]|]; simpl;
      [reflexivity | exact IHl | reflexivity].
  - rewrite Htype. reflexivity.
Qed.

(** X4: What [CheckType(correct_type)] answers does not depend on
    [correct_type]: a value that is neither a class nor a tuple raises
    [TypeError], and a class is accepted exactly when it is [type] or
    [object]. *)
Theorem CheckType_call_ignores_type (correct_type other_type : pytype)
    (value : pyval) :
  CheckType_call correct_type value = CheckType_call other_type value
  /\ (type_of value ∉ [Ttype; Ttuple] ->
      CheckType_call correct_type value = Raise TypeError)
  /\ (forall c,
        value = VType c ->
        CheckType_call correct_type value
        = Return (pytype_eqb c Ttype || pytype_eqb c Tobject)).
Proof.
  split; [apply py_isinstance_type_of; reflexivity|]. split.
  - intros Hnot. destruct value; try reflexivity; exfalso; apply Hnot;
      simpl; repeat constructor.
  - intros c ->. unfold CheckType_call. simpl. f_equal.
    destruct c; reflexivity.
Qed.

(** ** Features *)

Section FeatureMore.
Variable cls : feature_class.
Implicit Types (self : gmap string pyval) (key : string) (value : pyval).
Implicit Types (other : list (string * pyval)).

(** An assignment either stores an accepted pair or raises and leaves the
    record alone. *)
Lemma setitem_cases key value self :
  (accepted cls (key, value)
   /\ setitem cls key value self = (Return tt, <[key := value]> self))
  \/ (~ accepted cls (key, value)
      /\ exists e, setitem cls key value self = (Raise e, self)).
Proof.
  unfold accepted. simpl.
  destruct (argument_validators cls !! key) as [validator|] eqn:Hkey.
  - rewrite (setitem_known_key _ _ _ _ _ Hkey).
    destruct (validator_call validator value) as [[|]|e] eqn:Hcall.
    + left. eauto.
    + right. split; [|eauto]. intros (v & [= <-] & Hv). congruence.
    + right. split; [|eauto]. intros (v & [= <-] & Hv). congruence.
  - rewrite (setitem_unknown_key _ _ _ _ Hkey).
    right. split; [|eauto]. intros (v & Hv & _). discriminate.
Qed.

Lemma update_cons key value other self :
  update cls ((key, value) :: other) self
  = match setitem cls key value self with
    | (Return _, self') => update cls other self'
    | (Raise e, self') => (Raise e, self')
    end.
Proof. reflexivity. Qed.

Lemma update_app other other' self :
  update cls (other ++ other') self
  = match update cls other self with
    | (Return _, self') => update cls other' self'
    | (Raise e, self') => (Raise e, self')
    end.
Proof.
  revert self. induction other as [|[key value] other IH]; intros self.
  - reflexivity.
  - rewrite <- app_comm_cons, !update_cons.
    destruct (setitem cls key value self) as [[[]|e] self']; [apply IH | reflexivity].
Qed.

(** What a bulk update does in full: it returns exactly when every pair is
    accepted, and then the record is the old one with the pairs stored from
    the left. *)
Lemma update_result other self :
  (Forall (accepted cls) other
   /\ update cls other self
      = (Return tt, fold_left (fun d kv => <[kv.1 := kv.2]> d) other self))
  \/ (~ Forall (accepted cls) other
      /\ exists e self', update cls other self = (Raise e, self')).
Proof.
  revert self. induction other as [|[key value] other IH]; intros self.
  - left. split; [constructor | reflexivity].
  - rewrite update_cons.
    destruct (setitem_cases key value self) as [[Hok ->]|[Hbad (e & ->)]].
    + destruct (IH (<[key := value]> self)) as [[Hall ->]|[Hnot (e & self' & ->)]].
      * left. split; [constructor; assumption | reflexivity].
      * right. split; [|eauto]. intros Hall. apply Hnot.
        inversion Hall; assumption.
    + right. split; [|eauto]. intros Hall. apply Hbad.
      inversion Hall; assumption.
Qed.

Lemma validated_insert key value self :
  accepted cls (key, value) -> validated cls self ->
  validated cls (<[key := value]> self).
Proof.
  intros Hok Hself k v. rewrite lookup_insert.
  destruct (decide (key = k)) as [<-|Hne]; simpl.
  - intros [= <-]. exact Hok.
  - apply Hself.
Qed.

Lemma validated_setitem key value self :
  validated cls self -> validated cls (setitem cls key value self).2.
Proof.
  intros Hself.
  destruct (setitem_cases key value self) as [[Hok ->]|[_ (e & ->)]]; simpl.
  - apply validated_insert; assumption.
  - exact Hself.
Qed.

Lemma validated_update other self :
  validated cls self -> validated cls (update cls other self).2.
Proof.
  revert self. induction other as [|[key value] other IH]; intros self Hself.
  - exact Hself.
  - rewrite update_cons.
    pose proof (validated_setitem key value self Hself) as Hnext.
    destruct (setitem cls key value self) as [[[]|e] self']; simpl in *.
    + apply IH, Hnext.
    + exact Hnext.
Qed.

Lemma validated_empty : validated cls ∅.
Proof. intros key value Hlookup. rewrite lookup_empty in Hlookup. discriminate. Qed.

Lemma validated_new (args kwargs : list (string * pyval)) self :
  new cls args kwargs = Return self -> validated cls self.
Proof.
  unfold new, init, bindM. intros Hnew.
  pose proof (validated_update args ∅ validated_empty) as Hargs.
  destruct (update cls args ∅) as [[[]|e] self1]; simpl in *; [|discriminate].
  pose proof (validated_update kwargs self1 Hargs) as Hkwargs.
  destruct (update cls kwargs self1) as [[[]|e] self2]; simpl in *;
    [|discriminate].
  injection Hnew as <-. exact Hkwargs.
Qed.

(** X5: The entries of a feature are validated at every moment: a new feature
    is, and an assignment or a bulk update keeps it so, whether it returns
    or raises. *)
Theorem validated_is_invariant :
  (forall args kwargs self, new cls args kwargs = Return self -> validated cls self)
  /\ (forall key value self,
        validated cls self -> validated cls (setitem cls key value self).2)
  /\ (forall other self,
        validated cls self -> validated cls (update cls other self).2).
Proof.
  split; [exact validated_new|].
  split; [exact validated_setitem | exact validated_update].
Qed.

(** X6: A bulk update is not atomic: when the pairs before [(key, value)] are
    stored and the assignment of [(key, value)] raises, the update raises
    the same exception, the earlier pairs stay stored and the later ones are
    not looked at. *)
Theorem update_stops_at_first_failure other key value rest self self1 e :
  update cls other self = (Return tt, self1) ->
  (setitem cls key value self1).1 = Raise e ->
  update cls (other ++ (key, value) :: rest) self = (Raise e, self1).
Proof.
  intros Hother Hfail. rewrite update_app, Hother, update_cons.
  destruct (setitem_cases key value self1) as [[_ Hset]|[_ (e' & Hset)]];
    rewrite Hset in Hfail |- *; simpl in Hfail; congruence.
Qed.

(** X7: A bulk update returns exactly when each pair has a key of the validator
    table and a value that the key's validator accepts; the record is then
    the old one with the pairs stored from the left, a later pair replacing
    an earlier one with the same key. *)
Theorem update_succeeds_iff other self :
  ((update cls other self).1 = Return tt <-> Forall (accepted cls) other)
  /\ ((update cls other self).1 = Return tt ->
      (update cls other self).2
      = fold_left (fun d kv => <[kv.1 := kv.2]> d) other self).
Proof.
  destruct (update_result other self) as [[Hall ->]|[Hnot (e & self' & ->)]];
    simpl.
  - split; [tauto | reflexivity].
  - split; [split; [discriminate | tauto] | discriminate].
Qed.

Lemma fold_insert_app {V} (l l' : list (string * V)) (d : gmap string V) :
  fold_left (fun d kv => <[kv.1 := kv.2]> d) (l ++ l') d
  = fold_left (fun d kv => <[kv.1 := kv.2]> d) l'
      (fold_left (fun d kv => <[kv.1 := kv.2]> d) l d).
Proof. apply fold_left_app. Qed.

(** X8: Constructing a feature from positional pairs and keyword arguments
    returns exactly when all of them are accepted, and gives the dictionary
    [{args..., kwargs...}]: a keyword argument overrides a positional pair
    with the same key. *)
Theorem new_is_dict_display (args kwargs : list (string * pyval)) self :
  new cls args kwargs = Return self <->
  Forall (accepted cls) (args ++ kwargs) /\ self = dict_display (args ++ kwargs).
Proof.
  unfold new, init, bindM, dict_display. rewrite fold_insert_app, Forall_app.
  destruct (update_result args ∅) as [[Hargs ->]|[Hnot (e & self' & ->)]].
  - destruct (update_result kwargs
                (fold_left (fun d kv => <[kv.1 := kv.2]> d) args ∅))
      as [[Hkwargs ->]|[Hnot (e & self' & ->)]].
    + split; [intros [= <-]; auto | intros [_ ->]; reflexivity].
    + split; [discriminate | tauto].
  - split; [discriminate | tauto].
Qed.

(** X9: Reading back: after a successful assignment the key reads as the value
    just stored, and every other key reads as before. *)
Theorem getitem_after_setitem key value self self' :
  setitem cls key value self = (Return tt, self') ->
  getitem cls self' key = Return value
  /\ forall other_key,
       other_key <> key -> getitem cls self' other_key = getitem cls self other_key.
Proof.
  intros Hset.
  destruct (setitem_cases key value self) as [[_ Hok]|[_ (e & Hbad)]];
    [|congruence].
  rewrite Hok in Hset. injection Hset as <-. unfold getitem. split.
  - rewrite lookup_insert_eq. reflexivity.
  - intros other_key Hne. rewrite lookup_insert_ne by congruence. reflexivity.
Qed.
End FeatureMore.

(** ** Tables *)

Lemma fold_insert_lookup {V} (entries : list (string * V)) (d : gmap string V)
    (key : string) (v : V) :
  fold_left (fun d kv => <[kv.1 := kv.2]> d) entries d !! key = Some v ->
  (key, v) ∈ entries \/ d !! key = Some v.
Proof.
  revert d. induction entries as [|[k x] entries IH]; intros d; simpl.
  - auto.
  - intros Hlookup. destruct (IH _ Hlookup) as [Hin|Hd].
    + left. right. exact Hin.
    + rewrite lookup_insert in Hd. destruct (decide (k = key)) as [<-|Hne].
      * injection Hd as <-. left. left.
      * auto.
Qed.

(** A key that a dict display maps is one of the keys written in it. *)
Lemma dict_display_lookup {V} (entries : list (string * V)) (key : string) (v : V) :
  dict_display entries !! key = Some v -> (key, v) ∈ entries.
Proof.
  intros Hlookup. destruct (fold_insert_lookup _ _ _ _ Hlookup) as [Hin|Hempty].
  - exact Hin.
  - rewrite lookup_empty in Hempty. discriminate.
Qed.

Lemma singleton_inj (key : string) (a b : pyval) :
  ({[ key := a ]} : gmap string pyval) = {[ key := b ]} -> a = b.
Proof.
  intros Heq. assert (({[ key := a ]} : gmap string pyval) !! key = Some b) as H
    by (rewrite Heq; apply lookup_singleton_eq).
  rewrite lookup_singleton_eq in H. congruence.
Qed.

Lemma bind_Return_inv {A B} (m : outcome A) (k : A -> outcome B) (b : B) :
  bind m k = Return b -> exists a, m = Return a /\ k a = Return b.
Proof. destruct m as [a|e]; simpl; [eauto | discriminate]. Qed.

Lemma bind_left_never_returns {A B} (m : outcome A) (k : A -> outcome B) :
  returns m = false -> returns (bind m k) = false.
Proof. destruct m; simpl; [discriminate | reflexivity]. Qed.

(** ** Sounds *)

Section SoundFacts.
Variable numeric : validator.
Implicit Types (self : gmap string pyval).

Lemma SoundAction_keys self key value :
  validated SoundAction_class self -> self !! key = Some value ->
  key = "sound_name" \/ key = "change".
Proof.
  intros Hself Hkey. destruct (Hself _ _ Hkey) as (validator & Htable & _).
  apply dict_display_lookup in Htable.
  apply list_elem_of_In in Htable. simpl in Htable.
  destruct Htable as [[= <- _]|[[= <- _]|[]]]; auto.
Qed.

Lemma SoundAction_change_accepted self change :
  validated SoundAction_class self -> self !! "change" = Some change ->
  OptionListValidator_call ["Start"; "Stop"] change = Return true.
Proof.
  intros Hself Hchange. destruct (Hself _ _ Hchange) as (validator & Htable & Hcall).
  vm_compute in Htable. injection Htable as <-. exact Hcall.
Qed.

Lemma SoundAction_toXML_eval self (parent_root : element) (name : pyval) :
  self !! "sound_name" = Some name ->
  SoundAction_toXML self parent_root
  = let node :=
      Element "SoundRef"
        match self !! "change" with
        | Some change => <[ "action" := change ]> {[ "name" := name ]}
        | None => {[ "name" := name ]}
        end VNone [] in
    Return (append_child parent_root node, node).
Proof.
  intros Hname. unfold SoundAction_toXML, getitem, is_default. rewrite Hname.
  destruct (self !! "change") as [change|] eqn:Hchange.
  - assert (contains self "change" = true) as ->
      by (apply contains_true; eauto).
    reflexivity.
  - assert (contains self "change" = false) as ->
      by (apply contains_false; assumption).
    reflexivity.
Qed.

Lemma SoundAction_fromXML_eval (soundref_root : element) :
  SoundAction_fromXML numeric soundref_root
  = match attrib soundref_root !! "name" with
    | None => Raise (BadCaveXML "SoundRef node must specify name attribute")
    | Some name =>
        match attrib soundref_root !! "action" with
        | None => Return (PyInstance SoundAction {[ "sound_name" := name ]})
        | Some action =>
            match OptionListValidator_call ["Start"; "Stop"] action with
            | Return true =>
                Return (PyInstance SoundAction
                          (<[ "change" := action ]> {[ "sound_name" := name ]}))
            | Return false =>
                Raise (InvalidArgument (NotAValidValue action "change"))
            | Raise e => Raise e
            end
        end
    end.
Proof.
  unfold SoundAction_fromXML, attrib_get.
  destruct (attrib soundref_root !! "name") as [name|]; [|reflexivity].
  destruct (attrib soundref_root !! "action") as [action|] eqn:Haction.
  - assert (contains (attrib soundref_root) "action" = true) as Hin
      by (apply contains_true; eauto).
    simpl. rewrite Hin. simpl.
    rewrite (setitem_known_key SoundAction_class "sound_name" name _
               (AlwaysValid "Name of a sound") eq_refl).
    simpl.
    rewrite (setitem_known_key SoundAction_class "change" action _
               (OptionListValidator ["Start"; "Stop"]) eq_refl).
    simpl. destruct (OptionListValidator_call ["Start"; "Stop"] action) as [[|]|];
      reflexivity.
  - assert (contains (attrib soundref_root) "action" = false) as Hin
      by (apply contains_false; assumption).
    simpl. rewrite Hin. reflexivity.
Qed.

(** X10: The round trip of a sound: a validated [SoundAction] with its
    [sound_name] set is written as a [SoundRef] node from which
    [SoundAction.fromXML] rebuilds an instance with the very same
    dictionary. *)
Theorem SoundAction_round_trip self (parent_root : element) (name : pyval) :
  validated SoundAction_class self ->
  self !! "sound_name" = Some name ->
  exists node,
    SoundAction_toXML self parent_root = Return (append_child parent_root node, node)
    /\ SoundAction_fromXML numeric node = Return (PyInstance SoundAction self).
Proof.
  intros Hself Hname. rewrite (SoundAction_toXML_eval _ _ _ Hname). simpl.
  eexists. split; [reflexivity|]. rewrite SoundAction_fromXML_eval. simpl.
  destruct (self !! "change") as [change|] eqn:Hchange.
  - rewrite lookup_insert_ne, lookup_singleton_eq, lookup_insert_eq by discriminate.
    rewrite (SoundAction_change_accepted _ _ Hself Hchange).
    do 2 f_equal. apply map_eq. intros key.
    destruct (decide (key = "change")) as [->|Hne1];
      [rewrite lookup_insert_eq; congruence|].
    rewrite lookup_insert_ne by congruence.
    destruct (decide (key = "sound_name")) as [->|Hne2];
      [rewrite lookup_singleton_eq; congruence|].
    rewrite lookup_singleton_ne by congruence.
    destruct (self !! key) as [value|] eqn:Hkey; [|reflexivity].
    destruct (SoundAction_keys _ _ _ Hself Hkey); congruence.
  - rewrite lookup_singleton_eq, lookup_singleton_ne by discriminate.
    do 2 f_equal. apply map_eq. intros key.
    destruct (decide (key = "sound_name")) as [->|Hne2];
      [rewrite lookup_singleton_eq; congruence|].
    rewrite lookup_singleton_ne by congruence.
    destruct (self !! key) as [value|] eqn:Hkey; [|reflexivity].
    destruct (SoundAction_keys _ _ _ Hself Hkey); congruence.
Qed.

(** X11: What [SoundAction.fromXML] does with a node: without a [name]
    attribute it raises [BadCaveXML]; with a name and no [action] it returns
    an instance that holds the name only; with the action "Start" or "Stop"
    the instance holds the action as its change, also when it is the
    default; any other hashable action raises [InvalidArgument]. *)
Theorem SoundAction_fromXML_outcomes (soundref_root : element) :
  (attrib soundref_root !! "name" = None ->
   SoundAction_fromXML numeric soundref_root
   = Raise (BadCaveXML "SoundRef node must specify name attribute"))
  /\ (forall name,
        attrib soundref_root !! "name" = Some name ->
        attrib soundref_root !! "action" = None ->
        SoundAction_fromXML numeric soundref_root
        = Return (PyInstance SoundAction {[ "sound_name" := name ]}))
  /\ (forall name action,
        attrib soundref_root !! "name" = Some name ->
        attrib soundref_root !! "action" = Some (VStr action) ->
        SoundAction_fromXML numeric soundref_root
        = if bool_decide (action ∈ ["Start"; "Stop"]) then
            Return (PyInstance SoundAction
                      (<[ "change" := VStr action ]> {[ "sound_name" := name ]}))
          else Raise (InvalidArgument (NotAValidValue (VStr action) "change")))
  /\ (forall name action,
        attrib soundref_root !! "name" = Some name ->
        attrib soundref_root !! "action" = Some action ->
        hashable action = true ->
        type_of action <> Tstr ->
        SoundAction_fromXML numeric soundref_root
        = Raise (InvalidArgument (NotAValidValue action "change"))).
Proof.
  rewrite SoundAction_fromXML_eval. repeat split.
  - intros ->. reflexivity.
  - intros name -> ->. reflexivity.
  - intros name action -> ->. unfold OptionListValidator_call. simpl hashable.
    cbv iota. destruct (existsb (String.eqb action) ["Start"; "Stop"]) eqn:Hin.
    + apply existsb_eqb_elem_of in Hin. rewrite bool_decide_eq_true_2 by done.
      reflexivity.
    + rewrite bool_decide_eq_false_2; [reflexivity|].
      intros Hmem. apply existsb_eqb_elem_of in Hmem. congruence.
  - intros name action -> -> Hhash Hstr. unfold OptionListValidator_call.
    rewrite Hhash. destruct action; try reflexivity. contradiction Hstr.
    reflexivity.
Qed.
End SoundFacts.

(** ** Timelines and event triggers *)

Section TimelineFacts.
Implicit Types (self : gmap string pyval).

Lemma TimelineAction_keys self key value :
  validated TimelineAction_class self -> self !! key = Some value ->
  key = "timeline_name" \/ key = "change".
Proof.
  intros Hself Hkey. destruct (Hself _ _ Hkey) as (validator & Htable & _).
  apply dict_display_lookup in Htable.
  apply list_elem_of_In in Htable. simpl in Htable.
  destruct Htable as [[= <- _]|[[= <- _]|[]]]; auto.
Qed.

(** A validated change is one of the four literals, and the table has a tag
    for it. *)
Lemma TimelineAction_change_listed self change :
  validated TimelineAction_class self -> self !! "change" = Some change ->
  exists c t,
    change = VStr c /\ (c, t) ∈ change_xml_tags
    /\ table_get change_xml_tags change = Return t.
Proof.
  intros Hself Hchange.
  destruct (Hself _ _ Hchange) as (validator & Htable & Hcall).
  vm_compute in Htable. injection Htable as <-.
  unfold validator_call, OptionListValidator_call in Hcall.
  destruct change as [| | | |c| | | |]; simpl in Hcall; try discriminate.
  - injection Hcall as Hin. rewrite !orb_true_iff, !String.eqb_eq in Hin.
    destruct Hin as [->|[->|[->|[->|Hin]]]]; [..|discriminate]; eexists _, _;
      (split; [reflexivity|]); (split; [|reflexivity]);
      apply list_elem_of_In; simpl; auto.
  - destruct (forallb hashable items); discriminate.
Qed.

Lemma change_xml_tags_inj (c c' t : string) :
  (c, t) ∈ change_xml_tags -> (c', t) ∈ change_xml_tags -> c = c'.
Proof.
  intros Hc Hc'. apply list_elem_of_In in Hc, Hc'. simpl in Hc, Hc'.
  intuition congruence.
Qed.

Lemma TimelineAction_toXML_eval self (parent_root : element) (name change : pyval) :
  self !! "timeline_name" = Some name ->
  self !! "change" = Some change ->
  TimelineAction_toXML self parent_root
  = match table_get change_xml_tags change with
    | Return t =>
        let node :=
          Element "TimerChange" {[ "name" := name ]} VNone [leaf t VNone] in
        Return (append_child parent_root node, node)
    | Raise e =>
        if is_KeyError e then
          Raise (ConsistencyError "TimelineAction must have change key set")
        else Raise e
    end.
Proof.
  intros Hname Hchange. unfold TimelineAction_toXML, getitem.
  rewrite Hname, Hchange. simpl.
  destruct (table_get change_xml_tags change) as [t|e]; [reflexivity|].
  simpl. destruct (is_KeyError e); reflexivity.
Qed.

(** X12: A validated [TimelineAction] with both keys set is written as a
    [TimerChange] node that carries the name and exactly one child, whose
    tag is the one the table gives for the change. *)
Theorem TimelineAction_toXML_one_child self (parent_root : element)
    (name change : pyval) :
  validated TimelineAction_class self ->
  self !! "timeline_name" = Some name ->
  self !! "change" = Some change ->
  exists c t,
    change = VStr c /\ (c, t) ∈ change_xml_tags
    /\ TimelineAction_toXML self parent_root
       = let node :=
           Element "TimerChange" {[ "name" := name ]} VNone [leaf t VNone] in
         Return (append_child parent_root node, node).
Proof.
  intros Hself Hname Hchange.
  destruct (TimelineAction_change_listed _ _ Hself Hchange)
    as (c & t & -> & Hin & Hget).
  exists c, t. split; [reflexivity|]. split; [exact Hin|].
  rewrite (TimelineAction_toXML_eval _ _ _ _ Hname Hchange), Hget. reflexivity.
Qed.

Lemma TimelineAction_toXML_Return self (parent_root parent node : element) :
  validated TimelineAction_class self ->
  TimelineAction_toXML self parent_root = Return (parent, node) ->
  exists name c t,
    self !! "timeline_name" = Some name /\ self !! "change" = Some (VStr c)
    /\ (c, t) ∈ change_xml_tags
    /\ node = Element "TimerChange" {[ "name" := name ]} VNone [leaf t VNone].
Proof.
  intros Hself Hxml.
  destruct (self !! "timeline_name") as [name|] eqn:Hname;
    [|rewrite (TimelineAction_toXML_unset_name _ _ Hname) in Hxml; discriminate].
  destruct (self !! "change") as [change|] eqn:Hchange;
    [|rewrite (TimelineAction_toXML_unset_change _ _ _ Hname Hchange) in Hxml;
      discriminate].
  destruct (TimelineAction_change_listed _ _ Hself Hchange)
    as (c & t & -> & Hin & Hget).
  rewrite (TimelineAction_toXML_eval _ _ _ _ Hname Hchange), Hget in Hxml.
  simpl in Hxml. injection Hxml as _ <-. eauto 10.
Qed.

(** X13: Writing loses nothing: two validated [TimelineAction]s that are written
    as the same node have the same dictionary. *)
Theorem TimelineAction_toXML_injective self self'
    (parent_root parent_root' parent parent' node : element) :
  validated TimelineAction_class self ->
  validated TimelineAction_class self' ->
  TimelineAction_toXML self parent_root = Return (parent, node) ->
  TimelineAction_toXML self' parent_root' = Return (parent', node) ->
  self = self'.
Proof.
  intros Hself Hself' Hxml Hxml'.
  destruct (TimelineAction_toXML_Return _ _ _ _ Hself Hxml)
    as (name & c & t & Hname & Hchange & Hin & ->).
  destruct (TimelineAction_toXML_Return _ _ _ _ Hself' Hxml')
    as (name' & c' & t' & Hname' & Hchange' & Hin' & Hnode).
  pose proof (f_equal attrib Hnode) as Hattrib.
  pose proof (f_equal children Hnode) as Htag.
  cbn [attrib children] in Hattrib, Htag. apply singleton_inj in Hattrib.
  assert (t = t') as <- by (apply (f_equal (fun l => tag <$> l)) in Htag;
                            injection Htag as Htag; exact Htag).
  subst name'.
  assert (c = c') as <- by (eapply change_xml_tags_inj; eassumption).
  apply map_eq. intros key.
  destruct (decide (key = "timeline_name")) as [->|Hne1]; [congruence|].
  destruct (decide (key = "change")) as [->|Hne2]; [congruence|].
  destruct (self !! key) as [value|] eqn:Hkey.
  { destruct (TimelineAction_keys _ _ _ Hself Hkey); congruence. }
  destruct (self' !! key) as [value|] eqn:Hkey'; [|reflexivity].
  destruct (TimelineAction_keys _ _ _ Hself' Hkey'); congruence.
Qed.

(** [EventTriggerAction.toXML] returns exactly when both keys are set, and
    then writes the two values as they are, as the attributes [name] and
    [enable] of an [Event] node without children; with either key unset it
    raises the same [ConsistencyError]. *)
Lemma EventTriggerAction_toXML_eval self (parent_root : element) :
  EventTriggerAction_toXML self parent_root
  = match self !! "trigger_name", self !! "enable" with
    | Some name, Some enable =>
        let node :=
          Element "Event" (<[ "enable" := enable ]> {[ "name" := name ]}) VNone [] in
        Return (append_child parent_root node, node)
    | _, _ =>
        Raise (ConsistencyError
                 "EventTriggerAction must specify both trigger_name and enable")
    end.
Proof.
  unfold EventTriggerAction_toXML, getitem.
  destruct (self !! "trigger_name"), (self !! "enable"); reflexivity.
Qed.
End TimelineFacts.

(** ** Moving the Cave *)

Section MoveCaveFacts.
Variable py_str : pyval -> string.
Variable CavePlacement_toXML : list (string * pyval) -> element -> outcome element.
Variable CavePlacement_fromXML : element -> outcome pyval.
Variable numeric : validator.
Implicit Types (self : gmap string pyval).

Lemma MoveCaveAction_keys self key value :
  validated (MoveCaveAction_class numeric) self -> self !! key = Some value ->
  key = "relative" \/ key = "duration" \/ key = "placement".
Proof.
  intros Hself Hkey. destruct (Hself _ _ Hkey) as (validator & Htable & _).
  apply dict_display_lookup in Htable.
  apply list_elem_of_In in Htable. simpl in Htable.
  destruct Htable as [[= <- _]|[[= <- _]|[[= <- _]|[]]]]; auto.
Qed.

Lemma MoveCaveAction_toXML_eval self (parent_root : element) (relative : pyval) :
  self !! "relative" = Some relative ->
  MoveCaveAction_toXML py_str CavePlacement_toXML numeric self parent_root
  = (action_root <-
       try_except
         (placement <- getitem (MoveCaveAction_class numeric) self "placement" ;;
          value_toXML CavePlacement_toXML placement
            (MoveCave_before_placement py_str self relative))
         is_KeyError
         (Raise (ConsistencyError (quoted_key_message "placement"))) ;;
     Return (append_child parent_root action_root, action_root)).
Proof.
  intros Hrelative.
  unfold MoveCaveAction_toXML, MoveCave_before_placement, getitem, is_default.
  rewrite Hrelative.
  destruct (self !! "duration") as [duration|] eqn:Hduration.
  - assert (contains self "duration" = true) as ->
      by (apply contains_true; eauto).
    simpl. destruct (truthy relative); reflexivity.
  - assert (contains self "duration" = false) as ->
      by (apply contains_false; assumption).
    simpl. destruct (truthy relative); reflexivity.
Qed.

(** X15: The last step of [MoveCaveAction.toXML], with [relative] set.  An unset
    placement is reported as a [ConsistencyError]; so is a [KeyError] that
    the placement's own [toXML] raises, because the call sits inside the
    same [try]; the class [CavePlacement] in place of an instance is a
    [TypeError], and any other value, which has no [toXML], an
    [AttributeError]. *)
Theorem MoveCaveAction_toXML_placement_errors self (parent_root : element)
    (relative : pyval) :
  self !! "relative" = Some relative ->
  (self !! "placement" = None ->
   MoveCaveAction_toXML py_str CavePlacement_toXML numeric self parent_root
   = Raise (ConsistencyError (quoted_key_message "placement")))
  /\ (forall items key,
        self !! "placement" = Some (VPlacement items) ->
        CavePlacement_toXML items (MoveCave_before_placement py_str self relative)
        = Raise (KeyError key) ->
        MoveCaveAction_toXML py_str CavePlacement_toXML numeric self parent_root
        = Raise (ConsistencyError (quoted_key_message "placement")))
  /\ (self !! "placement" = Some (VType TCavePlacement) ->
      MoveCaveAction_toXML py_str CavePlacement_toXML numeric self parent_root
      = Raise TypeError)
  /\ (forall value,
        self !! "placement" = Some value ->
        type_of value <> TCavePlacement ->
        value <> VType TCavePlacement ->
        MoveCaveAction_toXML py_str CavePlacement_toXML numeric self parent_root
        = Raise AttributeError).
Proof.
  intros Hrelative. rewrite (MoveCaveAction_toXML_eval _ _ _ Hrelative).
  unfold getitem. repeat split.
  - intros ->. reflexivity.
  - intros items key -> Hraise. simpl. rewrite Hraise. reflexivity.
  - intros ->. reflexivity.
  - intros value -> Htype Hclass. destruct value as [| | | | | | |t|];
      try reflexivity.
    + destruct t; try reflexivity. contradiction Hclass. reflexivity.
    + contradiction Htype. reflexivity.
Qed.

Lemma MoveCave_setitem self key value (validator : validator) :
  argument_validators (MoveCaveAction_class numeric) !! key = Some validator ->
  validator_call validator value = Return true ->
  obj_setitem numeric (PyInstance MoveCaveAction self) key value
  = Return (PyInstance MoveCaveAction (<[key := value]> self)).
Proof.
  intros Hkey Hcall. unfold obj_setitem. simpl class_of.
  rewrite (setitem_known_key _ _ _ _ _ Hkey), Hcall. reflexivity.
Qed.

Lemma MoveCaveAction_fromXML_eval (move_cave_root : element) :
  attrib move_cave_root !! "duration" = None ->
  MoveCaveAction_fromXML CavePlacement_fromXML numeric move_cave_root
  = match MoveCave_relative_child move_cave_root with
    | None =>
        Raise (BadCaveXML
                 "MoveCave node must contain either Absolute or Relative child")
    | Some relative =>
        match find move_cave_root "Placement" with
        | None =>
            Raise (BadCaveXML "MoveCave node must contain Placement child node")
        | Some place_node =>
            placement <- CavePlacement_fromXML place_node ;;
            Return (PyInstance MoveCaveAction
                      (<[ "placement" := placement ]>
                         {[ "relative" := VBool relative ]}))
        end
    end.
Proof.
  intros Hduration. apply contains_false in Hduration.
  unfold MoveCaveAction_fromXML, MoveCave_relative_child.
  rewrite Hduration.
  change (create numeric MoveCaveAction)
    with (@Return pyobj (PyInstance MoveCaveAction ∅)).
  cbn [bind].
  assert (forall b,
            obj_setitem numeric (PyInstance MoveCaveAction ∅) "relative" (VBool b)
            = Return (PyInstance MoveCaveAction {[ "relative" := VBool b ]}))
    as Hrel.
  { intros b. apply (MoveCave_setitem _ _ _ (AlwaysValid "Either true or false"));
      reflexivity. }
  destruct (find move_cave_root "Relative");
    [|destruct (find move_cave_root "Absolute"); [|reflexivity]];
    rewrite Hrel; cbn [bind];
    (destruct (find move_cave_root "Placement") as [place_node|];
     [|reflexivity]);
    (destruct (CavePlacement_fromXML place_node) as [placement|]; [|reflexivity]);
    cbn [bind];
    rewrite (MoveCave_setitem _ "placement" placement
               (AlwaysValid "A CavePlacement object")) by reflexivity;
    reflexivity.
Qed.

(** X16: What [MoveCaveAction.fromXML] does with a node that has no [duration]
    attribute.  Without a [Relative] and an [Absolute] child it raises
    [BadCaveXML] about them, also when the placement is missing too; with
    one of them and no [Placement] child it raises [BadCaveXML] about the
    placement; a [Relative] child makes the move relative whether or not an
    [Absolute] child is there as well; an [Absolute] child alone makes it
    absolute. *)
Theorem MoveCaveAction_fromXML_outcomes (move_cave_root : element) :
  attrib move_cave_root !! "duration" = None ->
  (find move_cave_root "Relative" = None ->
   find move_cave_root "Absolute" = None ->
   MoveCaveAction_fromXML CavePlacement_fromXML numeric move_cave_root
   = Raise (BadCaveXML
              "MoveCave node must contain either Absolute or Relative child"))
  /\ (MoveCave_relative_child move_cave_root <> None ->
      find move_cave_root "Placement" = None ->
      MoveCaveAction_fromXML CavePlacement_fromXML numeric move_cave_root
      = Raise (BadCaveXML "MoveCave node must contain Placement child node"))
  /\ (forall relative_node place_node placement,
        find move_cave_root "Relative" = Some relative_node ->
        find move_cave_root "Placement" = Some place_node ->
        CavePlacement_fromXML place_node = Return placement ->
        MoveCaveAction_fromXML CavePlacement_fromXML numeric move_cave_root
        = Return (PyInstance MoveCaveAction
                    (<[ "placement" := placement ]>
                       {[ "relative" := VBool true ]})))
  /\ (forall absolute_node place_node placement,
        find move_cave_root "Relative" = None ->
        find move_cave_root "Absolute" = Some absolute_node ->
        find move_cave_root "Placement" = Some place_node ->
        CavePlacement_fromXML place_node = Return placement ->
        MoveCaveAction_fromXML CavePlacement_fromXML numeric move_cave_root
        = Return (PyInstance MoveCaveAction
                    (<[ "placement" := placement ]>
                       {[ "relative" := VBool false ]}))).
Proof.
  intros Hduration. rewrite (MoveCaveAction_fromXML_eval _ Hduration).
  unfold MoveCave_relative_child. repeat split.
  - intros -> ->. reflexivity.
  - intros Hchild ->.
    destruct (find move_cave_root "Relative");
      [|destruct (find move_cave_root "Absolute")]; congruence.
  - intros relative_node place_node placement -> -> ->. reflexivity.
  - intros absolute_node place_node placement -> -> -> ->. reflexivity.
Qed.

(** X17: The round trip of a move: a validated [MoveCaveAction] without a
    duration, whose [relative] is a boolean and whose placement is written
    as a [Placement] child that [CavePlacement.fromXML] reads back, is
    rebuilt by [MoveCaveAction.fromXML] with the very same dictionary. *)
Theorem MoveCaveAction_round_trip self (parent_root place_node : element)
    (relative : bool) (items : list (string * pyval)) :
  validated (MoveCaveAction_class numeric) self ->
  self !! "duration" = None ->
  self !! "relative" = Some (VBool relative) ->
  self !! "placement" = Some (VPlacement items) ->
  CavePlacement_toXML items (MoveCave_before_placement py_str self (VBool relative))
  = Return (append_child
              (MoveCave_before_placement py_str self (VBool relative)) place_node) ->
  tag place_node = "Placement" ->
  CavePlacement_fromXML place_node = Return (VPlacement items) ->
  exists node,
    MoveCaveAction_toXML py_str CavePlacement_toXML numeric self parent_root
    = Return (append_child parent_root node, node)
    /\ MoveCaveAction_fromXML CavePlacement_fromXML numeric node
       = Return (PyInstance MoveCaveAction self).
Proof.
  intros Hself Hduration Hrelative Hplacement Hwrite Htag Hread.
  rewrite (MoveCaveAction_toXML_eval _ _ _ Hrelative).
  unfold getitem. rewrite Hplacement. cbn [value_toXML bind try_except].
  rewrite Hwrite. cbn [bind try_except].
  eexists. split; [reflexivity|].
  unfold MoveCave_before_placement. rewrite Hduration.
  destruct place_node as [t a x c]. simpl in Htag. subst t.
  rewrite MoveCaveAction_fromXML_eval by reflexivity.
  assert (forall R, find (append_child (Element "MoveCave" ∅ VNone [leaf R VNone])
                            (Element "Placement" a x c)) "Placement"
                    = if String.eqb R "Placement" then Some (leaf R VNone)
                      else Some (Element "Placement" a x c)) as Hfind.
  { intros R. unfold find. simpl. destruct (String.eqb R "Placement"); reflexivity. }
  assert (MoveCave_relative_child
            (append_child
               (Element "MoveCave" ∅ VNone
                  [leaf (if truthy (VBool relative) then "Relative" else "Absolute")
                     VNone])
               (Element "Placement" a x c)) = Some relative) as ->
    by (destruct relative; reflexivity).
  rewrite Hfind.
  assert (String.eqb (if truthy (VBool relative) then "Relative" else "Absolute")
            "Placement" = false) as -> by (destruct relative; reflexivity).
  rewrite Hread. cbn [bind]. do 2 f_equal. apply map_eq. intros key.
  destruct (decide (key = "placement")) as [->|Hne1];
    [rewrite lookup_insert_eq; congruence|].
  rewrite lookup_insert_ne by congruence.
  destruct (decide (key = "relative")) as [->|Hne2];
    [rewrite lookup_singleton_eq; congruence|].
  rewrite lookup_singleton_ne by congruence.
  destruct (self !! key) as [value|] eqn:Hkey; [|reflexivity].
  destruct (MoveCaveAction_keys _ _ _ Hself Hkey) as [|[|]]; congruence.
Qed.
End MoveCaveFacts.

(** ** Object and group changes *)

Section TransitionFacts.
Variable bool2text : pyval -> outcome pyval.
Variable text2bool : pyval -> outcome pyval.
Variable text2tuple : pyval -> outcome pyval.
Variable py_str : pyval -> string.
Variable CavePlacement_toXML : list (string * pyval) -> element -> outcome element.
Variable CavePlacement_fromXML : element -> outcome pyval.
Variable numeric : validator.
Implicit Types (self : gmap string pyval).

Lemma toXML_sound_never_returns (cls : feature_class) self
    (trans_root : element) (change : pyval) :
  self !! "sound_change" = Some change ->
  returns (toXML_sound cls self trans_root) = false.
Proof.
  intros Hchange. unfold toXML_sound, getitem.
  assert (contains self "sound_change" = true) as ->
    by (apply contains_true; eauto).
  rewrite Hchange. reflexivity.
Qed.

(** X18: An [ObjectAction] or a [GroupAction] whose [sound_change] is set cannot
    be written: [toXML] passes a set where [ET.SubElement] wants the
    attribute dict, so it raises whatever the other keys hold. *)
Theorem sound_change_is_never_written self (parent_root : element)
    (change : pyval) :
  self !! "sound_change" = Some change ->
  returns (ObjectAction_toXML bool2text py_str CavePlacement_toXML numeric
             self parent_root) = false
  /\ returns (GroupAction_toXML bool2text py_str CavePlacement_toXML numeric
                self parent_root) = false.
Proof.
  intros Hchange.
  pose proof (fun cls trans_root =>
                toXML_sound_never_returns cls self trans_root change Hchange)
    as Hsound.
  split; [unfold ObjectAction_toXML | unfold GroupAction_toXML];
    repeat first [ apply bind_left_never_returns; apply Hsound
                 | apply bind_never_returns; intros ? ].
Qed.

(** X19: No action of any class holds a color, as long as its entries are
    validated: the only validator of ["color"] refuses every value. *)
Theorem validated_action_has_no_color (c : action_class) self :
  validated (class_of numeric c) self -> self !! "color" = None.
Proof.
  intros Hself. destruct (self !! "color") as [color|] eqn:Hcolor; [|reflexivity].
  destruct (Hself _ _ Hcolor) as (validator & Htable & Hcall).
  destruct c; vm_compute in Htable; try discriminate;
    injection Htable as <-;
    apply (IsNumericIterable_accepts (Some 3) color) in Hcall;
    destruct Hcall as [_ [|]]; discriminate.
Qed.

Lemma validator_TypeError_on_numbers (validator : validator) (f : spec_float) :
  validator_call validator (VFloat f) = Raise TypeError ->
  validator_call validator (VInt 1) = Raise TypeError.
Proof.
  destruct validator as [options| |required_length|correct_type|help]; simpl.
  - discriminate.
  - discriminate.
  - rewrite IsNumericIterable_not_iterable by reflexivity. discriminate.
  - reflexivity.
  - discriminate.
Qed.

Lemma scale_TypeError (obj : pyobj) (f : spec_float) :
  obj_setitem numeric obj "scale" (VFloat f) = Raise TypeError ->
  obj_setitem numeric obj "scale" (VInt 1) = Raise TypeError.
Proof.
  destruct obj as [|c self|c]; try reflexivity. unfold obj_setitem.
  destruct (argument_validators (class_of numeric c) !! "scale")
    as [validator|] eqn:Hkey.
  - rewrite !(setitem_known_key _ _ _ _ _ Hkey).
    pose proof (validator_TypeError_on_numbers validator f) as Hnumbers.
    destruct (validator_call validator (VFloat f)) as [[|]|e]; try discriminate.
    intros [= ->]. rewrite Hnumbers by reflexivity. reflexivity.
  - rewrite !(setitem_unknown_key _ _ _ _ Hkey). discriminate.
Qed.

(** X20: When the [except TypeError] clause of the [Scale] step matters.  With a
    [Scale] child whose text is anything but the class [str], the clause
    changes nothing: the step stores the float that the stripped text
    denotes or raises what stripping, [float] or the assignment raises, and
    the scale is not replaced by 1.  Only when the text is the class [str]
    itself, whose unbound [strip] raises [TypeError], does the step assign
    the fallback 1. *)
Theorem fromXML_scale_fallback (trans_root node : element) (obj : pyobj) :
  find trans_root "Scale" = Some node ->
  (text node <> VType Tstr ->
   fromXML_scale numeric trans_root obj
   = (stripped <- py_strip (text node) ;;
      scale <- py_float stripped ;;
      obj_setitem numeric obj "scale" (VFloat scale)))
  /\ (text node = VType Tstr ->
      fromXML_scale numeric trans_root obj
      = obj_setitem numeric obj "scale" (VInt 1)).
Proof.
  intros Hfind. unfold fromXML_scale. rewrite Hfind. split.
  - intros Hclass.
    destruct (text node) as [| | | |s| | |t|]; try reflexivity.
    + cbn [py_strip bind py_float].
      destruct (float_of_text (str_strip s)) as [f|]; [|reflexivity].
      cbn [bind]. pose proof (scale_TypeError obj f) as Hsame.
      destruct (obj_setitem numeric obj "scale" (VFloat f)) as [obj'|e];
        [reflexivity|].
      destruct e; try reflexivity. simpl. apply Hsame. reflexivity.
    + destruct t; try reflexivity. contradiction Hclass. reflexivity.
  - intros ->. reflexivity.
Qed.

(** X21: How a link change is written, when none of the other optional keys is
    set: the [Transition] node carries the duration (1 when none is set) and
    a [LinkChange] child with exactly one child, whose tag is the one of
    the table.  The table lookup of [ObjectAction.toXML] and the [if] chain
    of [GroupAction.toXML] write the same. *)
Theorem link_change_is_written self (parent_root : element) (name : pyval)
    (c t : string) :
  (c, t) ∈ link_xml_tags ->
  self !! "visible" = None -> self !! "placement" = None ->
  self !! "color" = None -> self !! "scale" = None ->
  self !! "sound_change" = None ->
  self !! "link_change" = Some (VStr c) ->
  let transition :=
    Element "Transition" {[ "duration" := default (VInt 1) (self !! "duration") ]}
      VNone [Element "LinkChange" ∅ VNone [leaf t VNone]] in
  (self !! "object_name" = Some name ->
   ObjectAction_toXML bool2text py_str CavePlacement_toXML numeric self parent_root
   = let node := Element "ObjectChange" {[ "name" := name ]} VNone [transition] in
     Return (append_child parent_root node, node))
  /\ (self !! "group_name" = Some name ->
      self !! "choose_random" = None ->
      GroupAction_toXML bool2text py_str CavePlacement_toXML numeric self parent_root
      = let node := Element "GroupRef" {[ "name" := name ]} VNone [transition] in
        Return (append_child parent_root node, node)).
Proof.
  intros Hin Hvisible Hplacement Hcolor Hscale Hsound Hlink transition.
  subst transition.
  apply contains_false in Hvisible, Hplacement, Hcolor, Hscale, Hsound.
  assert (contains self "link_change" = true) as Hhas
    by (apply contains_true; eauto).
  apply list_elem_of_In in Hin. simpl in Hin.
  split.
  - intros Hname.
    unfold ObjectAction_toXML, toXML_visible, toXML_placement, toXML_color,
      toXML_scale, toXML_sound, getitem.
    rewrite Hname, Hvisible, Hplacement, Hcolor, Hscale, Hsound, Hhas, Hlink.
    destruct (self !! "duration") as [duration|];
      destruct Hin as [[= <- <-]|[[= <- <-]|[[= <- <-]|[[= <- <-]|[]]]]];
      reflexivity.
  - intros Hname Hrandom. apply contains_false in Hrandom.
    unfold GroupAction_toXML, toXML_visible, toXML_placement, toXML_color,
      toXML_scale, toXML_sound, getitem, is_default.
    rewrite Hname, Hvisible, Hplacement, Hcolor, Hscale, Hsound, Hhas, Hlink,
      Hrandom.
    destruct (self !! "duration") as [duration|];
      destruct Hin as [[= <- <-]|[[= <- <-]|[[= <- <-]|[[= <- <-]|[]]]]];
      reflexivity.
Qed.

(** X22: [GroupAction.fromXML] raises on every node: like [ObjectAction.fromXML]
    it ends with the loop over the keys of [link_xml_tags]. *)
Theorem GroupAction_fromXML_always_raises (action_root : element) :
  exists e,
    GroupAction_fromXML text2bool text2tuple CavePlacement_fromXML numeric
      action_root = Raise e.
Proof.
  pose proof (GroupAction_fromXML_never_returns text2bool text2tuple
                CavePlacement_fromXML numeric action_root) as Hnever.
  destruct (GroupAction_fromXML text2bool text2tuple CavePlacement_fromXML
              numeric action_root) as [obj|e]; [discriminate | eauto].
Qed.

(** X23: [TimelineAction.fromXML] raises on every node: [TypeError] when the
    node has a [name] attribute, [BadCaveXML] when it has none. *)
Theorem TimelineAction_fromXML_always_raises (timer_change_root : element) :
  (is_Some (attrib timer_change_root !! "name") ->
   TimelineAction_fromXML numeric timer_change_root = Raise TypeError)
  /\ (attrib timer_change_root !! "name" = None ->
      TimelineAction_fromXML numeric timer_change_root
      = Raise (BadCaveXML "TimerChange node must have name attribute set")).
Proof.
  rewrite TimelineAction_fromXML_raises. split.
  - intros [name ->]. reflexivity.
  - intros ->. reflexivity.
Qed.

(** *** The classes the factory can return *)

Lemma obj_setitem_class (obj obj' : pyobj) (key : string) (value : pyval) :
  obj_setitem numeric obj key value = Return obj' ->
  exists c self self', obj = PyInstance c self /\ obj' = PyInstance c self'.
Proof.
  destruct obj as [|c self|c]; simpl; try discriminate.
  destruct (setitem (class_of numeric c) key value self) as [[[]|e] self'];
    [|discriminate].
  intros [= <-]. eauto.
Qed.

Lemma obj_setitem_instance (c : action_class) (self : gmap string pyval)
    (obj' : pyobj) (key : string) (value : pyval) :
  obj_setitem numeric (PyInstance c self) key value = Return obj' ->
  exists self', obj' = PyInstance c self'.
Proof.
  intros Hset. apply obj_setitem_class in Hset as (c' & s & s' & [= <- <-] & ->).
  eauto.
Qed.

Lemma MoveCaveAction_fromXML_class (move_cave_root : element) (obj : pyobj) :
  MoveCaveAction_fromXML CavePlacement_fromXML numeric move_cave_root = Return obj ->
  exists self, obj = PyInstance MoveCaveAction self.
Proof.
  unfold MoveCaveAction_fromXML.
  change (create numeric MoveCaveAction)
    with (@Return pyobj (PyInstance MoveCaveAction ∅)).
  cbn [bind]. intros Hxml.
  apply bind_Return_inv in Hxml as (obj1 & Hduration & Hxml).
  assert (exists self1, obj1 = PyInstance MoveCaveAction self1) as [self1 ->].
  { destruct (contains (attrib move_cave_root) "duration").
    - apply bind_Return_inv in Hduration as (duration & _ & Hset).
      apply obj_setitem_instance in Hset. exact Hset.
    - injection Hduration as <-. eauto. }
  apply bind_Return_inv in Hxml as (obj2 & Hrelative & Hxml).
  assert (exists self2, obj2 = PyInstance MoveCaveAction self2) as [self2 ->].
  { destruct (find move_cave_root "Relative");
      [|destruct (find move_cave_root "Absolute"); [|discriminate]];
      apply obj_setitem_instance in Hrelative; exact Hrelative. }
  destruct (find move_cave_root "Placement") as [place_node|]; [|discriminate].
  apply bind_Return_inv in Hxml as (placement & _ & Hxml).
  apply bind_Return_inv in Hxml as (obj3 & Hset & Hxml).
  apply obj_setitem_instance in Hset as [self3 ->].
  injection Hxml as <-. eauto.
Qed.

(** X24: When the factory returns an instance, its class is the one of the tag,
    and the tag is [SoundRef], [MoveCave] or [Restart]: for the four other
    known tags the factory raises or returns [None]. *)
Theorem CaveAction_fromXML_instance_classes (action_root : element)
    (c : action_class) (self : gmap string pyval) :
  CaveAction_fromXML text2bool text2tuple CavePlacement_fromXML numeric action_root
  = Return (PyInstance c self) ->
  (tag action_root = "SoundRef" /\ c = SoundAction)
  \/ (tag action_root = "MoveCave" /\ c = MoveCaveAction)
  \/ (tag action_root = "Restart" /\ c = CaveResetAction /\ self = ∅).
Proof.
  unfold CaveAction_fromXML. intros Hxml.
  destruct (String.eqb_spec (tag action_root) "ObjectChange") as [_|_].
  { pose proof (ObjectAction_fromXML_never_returns text2bool text2tuple
                  CavePlacement_fromXML numeric action_root) as Hnever.
    rewrite Hxml in Hnever. discriminate. }
  destruct (String.eqb_spec (tag action_root) "GroupRef") as [_|_].
  { pose proof (GroupAction_fromXML_never_returns text2bool text2tuple
                  CavePlacement_fromXML numeric action_root) as Hnever.
    rewrite Hxml in Hnever. discriminate. }
  destruct (String.eqb_spec (tag action_root) "TimerChange") as [_|_].
  { rewrite TimelineAction_fromXML_raises in Hxml.
    destruct (attrib action_root !! "name"); discriminate. }
  destruct (String.eqb_spec (tag action_root) "SoundRef") as [Htag|_].
  { left. split; [exact Htag|]. rewrite SoundAction_fromXML_eval in Hxml.
    destruct (attrib action_root !! "name"); [|discriminate].
    destruct (attrib action_root !! "action") as [action|]; [|congruence].
    destruct (OptionListValidator_call ["Start"; "Stop"] action) as [[|]|];
      congruence. }
  destruct (String.eqb_spec (tag action_root) "Event") as [_|_].
  { destruct (EventTriggerAction_fromXML_no_instance numeric action_root)
      as [Hnone|Hraise]; rewrite Hxml in *; discriminate. }
  destruct (String.eqb_spec (tag action_root) "MoveCave") as [Htag|_].
  { right. left. split; [exact Htag|].
    apply MoveCaveAction_fromXML_class in Hxml as [self' [= -> _]]. reflexivity. }
  destruct (String.eqb_spec (tag action_root) "Restart") as [Htag|_];
    [|discriminate].
  right. right. split; [exact Htag|].
  rewrite CaveResetAction_fromXML_instance in Hxml.
  injection Hxml as <- <-. auto.
Qed.
End TransitionFacts.

(** ** Controller names *)

Lemma append_inj_r (prefix a b : string) : prefix ++ a = prefix ++ b -> a = b.
Proof.
  induction prefix as [|ch prefix IH]; simpl; [auto|].
  intros [= H]. auto.
Qed.

Lemma controller_name_inj (object_name : string) (m n : nat) :
  controller_name object_name m = controller_name object_name n -> m = n.
Proof.
  unfold controller_name. intros H.
  do 4 apply append_inj_r in H. apply (inj pretty) in H. exact H.
Qed.

Section ControllerFacts.
Variable controller_add :
  string -> string -> gmap string (gset string) -> gmap string (gset string).
Variable object_name : string.
Variable taken : gset string.

(** What the loop computes: the name of the least free count in its range,
    or nothing when every count in its range is taken. *)
Lemma controller_search_result (fuel count : nat) :
  match controller_search object_name taken fuel count with
  | Some name =>
      exists n,
        name = controller_name object_name n
        /\ (count <= n < count + fuel)%nat
        /\ (controller_name object_name n ∉ taken)
        /\ forall m, (count <= m < n)%nat -> controller_name object_name m ∈ taken
  | None =>
      forall m, (count <= m < count + fuel)%nat ->
                controller_name object_name m ∈ taken
  end.
Proof.
  revert count. induction fuel as [|fuel IH]; intros count; simpl.
  - intros m Hm. lia.
  - destruct (decide (controller_name object_name count ∉ taken)) as [Hfree|Htaken].
    + exists count. split; [reflexivity|]. split; [lia|]. split; [exact Hfree|].
      intros m Hm. lia.
    + apply dec_stable in Htaken. specialize (IH (S count)).
      destruct (controller_search object_name taken fuel (S count)) as [name|].
      * destruct IH as (n & -> & Hrange & Hfree & Hleast).
        exists n. split; [reflexivity|]. split; [lia|]. split; [exact Hfree|].
        intros m Hm. destruct (decide (m = count)) as [->|Hne];
          [exact Htaken | apply Hleast; lia].
      * intros m Hm. destruct (decide (m = count)) as [->|Hne];
          [exact Htaken | apply IH; lia].
Qed.

(** Among the first [size taken + 1] names one is free. *)
Lemma controller_names_not_all_taken :
  ~ forall m, (m < S (size taken))%nat -> controller_name object_name m ∈ taken.
Proof.
  intros Hall.
  set (names := controller_name object_name <$> seq 0 (S (size taken))).
  assert (NoDup names) as Hnodup.
  { apply NoDup_fmap_2; [|apply NoDup_seq].
    intros m n. apply controller_name_inj. }
  assert (list_to_set names ⊆ taken) as Hsub.
  { intros name Hname. apply elem_of_list_to_set in Hname.
    apply list_elem_of_fmap in Hname as (m & -> & Hm).
    apply elem_of_seq in Hm. apply Hall. lia. }
  apply subseteq_size in Hsub.
  rewrite size_list_to_set in Hsub by exact Hnodup.
  unfold names in Hsub. rewrite length_fmap, length_seq in Hsub. lia.
Qed.

(** X26: When the object exists, [generate_python_controller] leaves its loop
    and returns a name that none of the object's controllers has: the one
    with the least count that is free.  It asks Blender for a controller of
    that name and appends the stub of the activation function to the file
    of the object. *)
Theorem generate_python_controller_fresh (bpy : blender) :
  controllers bpy !! object_name = Some taken ->
  exists n,
    generate_python_controller controller_add object_name bpy
    = Some (Return
              (controller_name object_name n,
               {| controllers :=
                    controller_add object_name (controller_name object_name n)
                      (controllers bpy);
                  files :=
                    append_file (object_name ++ "." ++ "py")
                      (newline ++ "def activate_" ++ controller_name object_name n
                       ++ ":" ++ newline ++ "    pass" ++ newline)
                      (files bpy) |}))
    /\ (controller_name object_name n ∉ taken)
    /\ forall m, (m < n)%nat -> controller_name object_name m ∈ taken.
Proof.
  intros Hobject. unfold generate_python_controller. rewrite Hobject.
  pose proof (controller_search_result (S (size taken)) 0) as Hsearch.
  destruct (controller_search object_name taken (S (size taken)) 0) as [name|].
  - destruct Hsearch as (n & -> & _ & Hfree & Hleast).
    exists n. split; [reflexivity|]. split; [exact Hfree|].
    intros m Hm. apply Hleast. lia.
  - exfalso. apply controller_names_not_all_taken.
    intros m Hm. apply Hsearch. lia.
Qed.
End ControllerFacts.

(** ** The further properties at the examples *)

Lemma update_stops_at_first_failure_witness :
  update SoundAction_class
    ([("sound_name", VStr "bell")] ++ ("volume", VInt 3) :: [("change", VStr "Stop")])
    ∅
  = (Raise (InvalidArgument (NotAValidOption "volume")),
     {[ "sound_name" := VStr "bell" ]}).
Proof.
  apply (update_stops_at_first_failure SoundAction_class
           [("sound_name", VStr "bell")] "volume" (VInt 3)
           [("change", VStr "Stop")] ∅); reflexivity.
Defined.

Lemma getitem_after_setitem_witness :
  getitem SoundAction_class (<[ "change" := VStr "Stop" ]> ∅) "change"
  = Return (VStr "Stop").
Proof.
  apply (getitem_after_setitem SoundAction_class "change" (VStr "Stop") ∅).
  reflexivity.
Defined.

Lemma SoundAction_round_trip_witness :
  exists node,
    SoundAction_toXML bell_action (leaf "root" VNone)
    = Return (append_child (leaf "root" VNone) node, node)
    /\ SoundAction_fromXML IsNumeric node = Return (PyInstance SoundAction bell_action).
Proof.
  apply (SoundAction_round_trip IsNumeric bell_action (leaf "root" VNone)
           (VStr "bell")).
  - apply (validated_new SoundAction_class
             [("sound_name", VStr "bell"); ("change", VStr "Stop")] []).
    reflexivity.
  - reflexivity.
Defined.

Lemma TimelineAction_toXML_one_child_witness :
  exists c t,
    VStr "Start" = VStr c /\ (c, t) ∈ change_xml_tags
    /\ TimelineAction_toXML intro_action (leaf "root" VNone)
       = let node :=
           Element "TimerChange" {[ "name" := VStr "intro" ]} VNone [leaf t VNone] in
         Return (append_child (leaf "root" VNone) node, node).
Proof.
  apply (TimelineAction_toXML_one_child intro_action (leaf "root" VNone)
           (VStr "intro") (VStr "Start")).
  - apply (validated_new TimelineAction_class
             [("timeline_name", VStr "intro"); ("change", VStr "Start")] []).
    reflexivity.
  - reflexivity.
  - reflexivity.
Defined.

Lemma TimelineAction_toXML_injective_witness : intro_action = intro_action.
Proof.
  assert (validated TimelineAction_class intro_action) as Hvalidated.
  { apply (validated_new TimelineAction_class
             [("timeline_name", VStr "intro"); ("change", VStr "Start")] []).
    reflexivity. }
  apply (TimelineAction_toXML_injective intro_action intro_action
           (leaf "root" VNone) (leaf "other" VNone)
           (append_child (leaf "root" VNone)
              (Element "TimerChange" {[ "name" := VStr "intro" ]} VNone
                 [leaf "start" VNone]))
           (append_child (leaf "other" VNone)
              (Element "TimerChange" {[ "name" := VStr "intro" ]} VNone
                 [leaf "start" VNone]))
           (Element "TimerChange" {[ "name" := VStr "intro" ]} VNone
              [leaf "start" VNone]));
    first [exact Hvalidated | reflexivity].
Defined.

Lemma MoveCaveAction_toXML_placement_errors_witness :
  MoveCaveAction_toXML plain_str missing_position_toXML IsNumeric
    move_action (leaf "root" VNone)
  = Raise (ConsistencyError (quoted_key_message "placement")).
Proof.
  apply (proj1 (proj2 (MoveCaveAction_toXML_placement_errors plain_str
                         missing_position_toXML IsNumeric move_action
                         (leaf "root" VNone) (VBool true) eq_refl))
           [] (VStr "position")); reflexivity.
Defined.

Lemma MoveCaveAction_fromXML_outcomes_witness :
  MoveCaveAction_fromXML no_placement_fromXML IsNumeric (leaf "MoveCave" VNone)
  = Raise (BadCaveXML
             "MoveCave node must contain either Absolute or Relative child").
Proof.
  apply (proj1 (MoveCaveAction_fromXML_outcomes no_placement_fromXML IsNumeric
                  (leaf "MoveCave" VNone) eq_refl)); reflexivity.
Defined.

Lemma MoveCaveAction_round_trip_witness :
  exists node,
    MoveCaveAction_toXML plain_str no_placement_toXML IsNumeric move_action
      (leaf "root" VNone)
    = Return (append_child (leaf "root" VNone) node, node)
    /\ MoveCaveAction_fromXML no_placement_fromXML IsNumeric node
       = Return (PyInstance MoveCaveAction move_action).
Proof.
  apply (MoveCaveAction_round_trip plain_str no_placement_toXML
           no_placement_fromXML IsNumeric move_action (leaf "root" VNone)
           (leaf "Placement" VNone) true []); try reflexivity.
  apply (validated_new (MoveCaveAction_class IsNumeric)
           [("relative", VBool true); ("placement", VPlacement [])] []).
  reflexivity.
Defined.

Lemma sound_change_is_never_written_witness :
  returns (ObjectAction_toXML write_bool plain_str no_placement_toXML IsNumeric
             (<[ "sound_change" := VStr "Play Sound" ]> table_action)
             (leaf "root" VNone)) = false
  /\ returns (GroupAction_toXML write_bool plain_str no_placement_toXML IsNumeric
                (<[ "sound_change" := VStr "Play Sound" ]> table_action)
                (leaf "root" VNone)) = false.
Proof.
  apply (sound_change_is_never_written write_bool plain_str no_placement_toXML
           IsNumeric (<[ "sound_change" := VStr "Play Sound" ]> table_action)
           (leaf "root" VNone) (VStr "Play Sound")).
  reflexivity.
Defined.

Lemma validated_action_has_no_color_witness : table_action !! "color" = None.
Proof.
  apply (validated_action_has_no_color IsNumeric ObjectAction table_action).
  apply (validated_new (ObjectAction_class IsNumeric)
           [("object_name", VStr "Table")] []).
  reflexivity.
Defined.

Lemma fromXML_scale_fallback_witness :
  fromXML_scale IsNumeric (Element "Transition" ∅ VNone [bad_scale])
    (PyInstance ObjectAction table_action)
  = (stripped <- py_strip (text bad_scale) ;;
     scale <- py_float stripped ;;
     obj_setitem IsNumeric (PyInstance ObjectAction table_action) "scale"
       (VFloat scale)).
Proof.
  apply (proj1 (fromXML_scale_fallback IsNumeric
                  (Element "Transition" ∅ VNone [bad_scale]) bad_scale
                  (PyInstance ObjectAction table_action) eq_refl)).
  discriminate.
Defined.

Lemma link_change_is_written_witness :
  ObjectAction_toXML write_bool plain_str no_placement_toXML IsNumeric
    link_action (leaf "root" VNone)
  = let node :=
      Element "ObjectChange" {[ "name" := VStr "Table" ]} VNone
        [Element "Transition" {[ "duration" := VInt 1 ]} VNone
           [Element "LinkChange" ∅ VNone [leaf "link_on" VNone]]] in
    Return (append_child (leaf "root" VNone) node, node).
Proof.
  refine (proj1 (link_change_is_written write_bool plain_str no_placement_toXML
                   IsNumeric link_action (leaf "root" VNone) (VStr "Table")
                   "Enable" "link_on" _ _ _ _ _ _ _) _);
    try reflexivity.
  apply list_elem_of_In. simpl. auto.
Defined.

Lemma CaveAction_fromXML_instance_classes_witness :
  (tag (leaf "Restart" VNone) = "SoundRef" /\ CaveResetAction = SoundAction)
  \/ (tag (leaf "Restart" VNone) = "MoveCave" /\ CaveResetAction = MoveCaveAction)
  \/ (tag (leaf "Restart" VNone) = "Restart" /\ CaveResetAction = CaveResetAction
      /\ (∅ : gmap string pyval) = ∅).
Proof.
  apply (CaveAction_fromXML_instance_classes read_true refuse_text
           no_placement_fromXML IsNumeric (leaf "Restart" VNone)).
  reflexivity.
Defined.

Lemma CaveAction_fromXML_unknown_tag_witness :
  CaveAction_fromXML read_true refuse_text no_placement_fromXML IsNumeric
    (leaf "Bogus" VNone)
  = Raise (BadCaveXML "Indicated action Bogus is not a valid action type").
Proof.
  apply (CaveAction_fromXML_unknown_tag read_true refuse_text
           no_placement_fromXML IsNumeric (leaf "Bogus" VNone)).
  apply (bool_decide_unpack _). vm_compute. exact I.
Defined.

Lemma generate_python_controller_fresh_witness :
  exists n,
    generate_python_controller add_named_controller "Table_object" table_scene
    = Some (Return
              (controller_name "Table_object" n,
               {| controllers :=
                    add_named_controller "Table_object"
                      (controller_name "Table_object" n) (controllers table_scene);
                  files :=
                    append_file ("Table_object" ++ "." ++ "py")
                      (newline ++ "def activate_" ++ controller_name "Table_object" n
                       ++ ":" ++ newline ++ "    pass" ++ newline)
                      (files table_scene) |}))
    /\ (controller_name "Table_object" n ∉ ({[ "Table_object_controller_0" ]} : gset string))
    /\ forall m, (m < n)%nat ->
                 controller_name "Table_object" m
                 ∈ ({[ "Table_object_controller_0" ]} : gset string).
Proof.
  apply (generate_python_controller_fresh add_named_controller "Table_object"
           {[ "Table_object_controller_0" ]} table_scene).
  reflexivity.
Defined.

(** ** Event triggers *)

Lemma EventTriggerAction_keys (self : gmap string pyval) (key : string)
    (value : pyval) :
  validated EventTriggerAction_class self -> self !! key = Some value ->
  key = "trigger_name" \/ key = "enable".
Proof.
  intros Hself Hkey. destruct (Hself _ _ Hkey) as (validator & Htable & _).
  apply dict_display_lookup in Htable.
  apply list_elem_of_In in Htable. simpl in Htable.
  destruct Htable as [[= <- _]|[[= <- _]|[]]]; auto.
Qed.

(** X14: Writing an event trigger loses nothing: two validated
    [EventTriggerAction]s that are written as the same node have the same
    dictionary, and a node is written only when both keys are set. *)
Theorem EventTriggerAction_toXML_injective (self self' : gmap string pyval)
    (parent_root parent_root' parent parent' node : element) :
  validated EventTriggerAction_class self ->
  validated EventTriggerAction_class self' ->
  EventTriggerAction_toXML self parent_root = Return (parent, node) ->
  EventTriggerAction_toXML self' parent_root' = Return (parent', node) ->
  self = self'
  /\ is_Some (self !! "trigger_name") /\ is_Some (self !! "enable").
Proof.
  intros Hself Hself' Hxml Hxml'.
  rewrite EventTriggerAction_toXML_eval in Hxml, Hxml'.
  destruct (self !! "trigger_name") as [name|] eqn:Hname; [|discriminate].
  destruct (self !! "enable") as [enable|] eqn:Henable; [|discriminate].
  destruct (self' !! "trigger_name") as [name'|] eqn:Hname'; [|discriminate].
  destruct (self' !! "enable") as [enable'|] eqn:Henable'; [|discriminate].
  split; [|split; eauto].
  cbv zeta in Hxml, Hxml'.
  assert (node = Element "Event" (<[ "enable" := enable ]> {[ "name" := name ]})
                   VNone []) as Hnode by congruence.
  assert (node = Element "Event" (<[ "enable" := enable' ]> {[ "name" := name' ]})
                   VNone []) as Hnode' by congruence.
  rewrite Hnode in Hnode'. apply (f_equal attrib) in Hnode'.
  cbn [attrib] in Hnode'.
  assert (enable = enable') as <-.
  { apply (f_equal (fun d => d !! "enable")) in Hnode'.
    rewrite !lookup_insert_eq in Hnode'. congruence. }
  assert (name = name') as <-.
  { apply (f_equal (fun d => d !! "name")) in Hnode'.
    rewrite !lookup_insert_ne, !lookup_singleton_eq in Hnode' by discriminate.
    congruence. }
  apply map_eq. intros key.
  destruct (decide (key = "trigger_name")) as [->|Hne1]; [congruence|].
  destruct (decide (key = "enable")) as [->|Hne2]; [congruence|].
  destruct (self !! key) as [value|] eqn:Hkey.
  { destruct (EventTriggerAction_keys _ _ _ Hself Hkey); congruence. }
  destruct (self' !! key) as [value|] eqn:Hkey'; [|reflexivity].
  destruct (EventTriggerAction_keys _ _ _ Hself' Hkey'); congruence.
Qed.

Lemma EventTriggerAction_toXML_injective_witness :
  is_Some (dict_display [("trigger_name", VStr "door"); ("enable", VBool true)]
           !! "trigger_name").
Proof.
  assert (validated EventTriggerAction_class
            (dict_display [("trigger_name", VStr "door"); ("enable", VBool true)]))
    as Hvalidated.
  { apply (validated_new EventTriggerAction_class
             [("trigger_name", VStr "door"); ("enable", VBool true)] []).
    reflexivity. }
  apply (EventTriggerAction_toXML_injective
           (dict_display [("trigger_name", VStr "door"); ("enable", VBool true)])
           (dict_display [("trigger_name", VStr "door"); ("enable", VBool true)])
           (leaf "root" VNone) (leaf "root" VNone)
           (append_child (leaf "root" VNone)
              (Element "Event"
                 (<[ "enable" := VBool true ]> {[ "name" := VStr "door" ]}) VNone []))
           (append_child (leaf "root" VNone)
              (Element "Event"
                 (<[ "enable" := VBool true ]> {[ "name" := VStr "door" ]}) VNone []))
           (Element "Event"
              (<[ "enable" := VBool true ]> {[ "name" := VStr "door" ]}) VNone []));
    first [exact Hvalidated | reflexivity].
Defined.
